(** * Species dialog: validation schemas and the edit / view / delete workflow

    A shallow embedding of

    - [src/app/species/species-details-dialog.tsx]: the species form schema
      and the dialog with the view / edit toggle;
    - [src/unnamed/part_001]: the dialog with the ownership gate, the delete
      handler, the comment schema and the comment form;
    - [src/app/species/comment-card.tsx]: the comment card and its delete
      handler.

    JavaScript strings are sequences of UTF-16 code units, React state is an
    explicit record threaded through the handlers, and everything a handler
    does to the outside (confirmation prompt, Supabase query, route refresh,
    toast) is recorded in a trace. *)

From Stdlib Require Import List String Ascii Bool NArith ZArith QArith Lia.
Import ListNotations.

Set Implicit Arguments.
Close Scope Q_scope.
Open Scope string_scope.
Open Scope list_scope.

(* ================================================================== *)
(** ** JavaScript strings *)

Module Js.

(** A string is its sequence of UTF-16 code units. *)
Definition str : Type := list N.

(** String literals of the source (all of them ASCII). *)
Definition lit (s : string) : str :=
  map N_of_ascii (list_ascii_of_string s).

Fixpoint eqb (a b : str) : bool :=
  match a, b with
  | [], [] => true
  | x :: a', y :: b' => N.eqb x y && eqb a' b'
  | _, _ => false
  end.

(** ECMAScript WhiteSpace and LineTerminator: what [String.prototype.trim]
    removes.  All of them are single code units. *)
Definition is_ws (c : N) : bool :=
  (N.eqb c 9 || N.eqb c 10 || N.eqb c 11 || N.eqb c 12 || N.eqb c 13
   || N.eqb c 32 || N.eqb c 160 || N.eqb c 5760
   || (N.leb 8192 c && N.leb c 8202)
   || N.eqb c 8232 || N.eqb c 8233 || N.eqb c 8239 || N.eqb c 8287
   || N.eqb c 12288 || N.eqb c 65279)%bool.

Fixpoint dropWhile (p : N -> bool) (s : str) : str :=
  match s with
  | [] => []
  | c :: s' => if p c then dropWhile p s' else s
  end.

Definition trimStart (s : str) : str := dropWhile is_ws s.
Definition trimEnd (s : str) : str := rev (dropWhile is_ws (rev s)).
Definition trim (s : str) : str := trimEnd (trimStart s).

(** [s.slice(0, n)] *)
Definition slice0 (n : nat) (s : str) : str := firstn n s.

(** [!val] on a string: the empty string is the only falsy one. *)
Definition falsy (s : str) : bool :=
  match s with [] => true | _ => false end.

(** JavaScript numbers, as far as validation looks at them.  Every finite
    double is a rational. *)
Inductive number : Type :=
| NaN
| Infinity (negative : bool)
| Finite (q : Q).

(** [Number.isInteger] *)
Definition isInteger (n : number) : bool :=
  match n with
  | Finite q => Z.eqb (Z.modulo (Qnum q) (Zpos (Qden q))) 0
  | _ => false
  end.

(** [n > k] and [n >= k] for an integer constant [k]. *)
Definition gt (n : number) (k : Z) : bool :=
  match n with
  | NaN => false
  | Infinity negative => negb negative
  | Finite q => Z.ltb (k * Zpos (Qden q)) (Qnum q)
  end.

Definition ge (n : number) (k : Z) : bool :=
  match n with
  | NaN => false
  | Infinity negative => negb negative
  | Finite q => Z.leb (k * Zpos (Qden q)) (Qnum q)
  end.

Definition zero : number := Finite 0.

Section UnaryPlus.
  (** Unary plus on a string is StringToNumber: a string that is empty or
      holds only white space converts to 0; anything else goes through the
      grammar of numeric literals, which is taken as given. *)
Variable StringNumericLiteral : str -> number.

Definition unary_plus (s : str) : number :=
    match trim s with
    | [] => zero
    | _ => StringNumericLiteral s
    end.
End UnaryPlus.

End Js.

(* ================================================================== *)
(** ** The platform's URL parser, as far as [new URL(s)] without a base
     decides on the scheme *)

Module Url.

Definition is_c0_or_space (c : N) : bool := N.leb c 32.
Definition is_tab_or_newline (c : N) : bool :=
  (N.eqb c 9 || N.eqb c 10 || N.eqb c 13)%bool.
Definition is_ascii_alpha (c : N) : bool :=
  ((N.leb 65 c && N.leb c 90) || (N.leb 97 c && N.leb c 122))%bool.
Definition is_ascii_digit (c : N) : bool := (N.leb 48 c && N.leb c 57)%bool.
Definition is_scheme_char (c : N) : bool :=
  (is_ascii_alpha c || is_ascii_digit c
   || N.eqb c 43 || N.eqb c 45 || N.eqb c 46)%bool.
Definition lower (c : N) : N :=
  if (N.leb 65 c && N.leb c 90)%bool then (c + 32)%N else c.

(** Leading and trailing C0 controls and spaces are stripped, then every
    tab and newline is removed. *)
Definition preprocess (s : Js.str) : Js.str :=
  filter (fun c => negb (is_tab_or_newline c))
    (rev (Js.dropWhile is_c0_or_space
            (rev (Js.dropWhile is_c0_or_space s)))).

(** Scheme state: reads the scheme up to the colon.  Anything else, the end
    of input included, falls to the no-scheme state, which fails when there
    is no base URL. *)
Fixpoint scheme_state (buffer : Js.str) (s : Js.str)
  : option (Js.str * Js.str) :=
  match s with
  | [] => None
  | c :: rest =>
      if is_scheme_char c then scheme_state (buffer ++ [lower c]) rest
      else if N.eqb c 58 then Some (buffer, rest)
      else None
  end.

(** Scheme start state. *)
Definition scheme_start_state (s : Js.str) : option (Js.str * Js.str) :=
  match s with
  | c :: rest =>
      if is_ascii_alpha c then scheme_state [lower c] rest else None
  | [] => None
  end.

Section Parser.
  (** The states after the scheme (authority, host, port, path, query,
      fragment) are the platform's; they get the scheme and the rest. *)
Variable after_scheme : Js.str -> Js.str -> bool.

  (** [true] when [new URL(s)] returns, [false] when it throws. *)
Definition constructs (s : Js.str) : bool :=
    match scheme_start_state (preprocess s) with
    | Some (scheme, rest) => after_scheme scheme rest
    | None => false
    end.
End Parser.

End Url.

(* ================================================================== *)
(** ** Zod results *)

Module Zod.

Inductive IssueCode : Type :=
| invalid_type
| too_small
| too_big
| invalid_string_url
| custom.

(** An issue: the field it is on, its code, and the message when the
    schema gives one. *)
Record Issue : Type := mkIssue {
  path : string;
  code : IssueCode;
  message : option Js.str
}.

Inductive Result (A : Type) : Type :=
| Ok (data : A)
| Err (issues : list Issue).

Arguments Ok {A} data.
Arguments Err {A} issues.

Definition isOk {A} (r : Result A) : bool :=
  match r with Ok _ => true | Err _ => false end.

Definition issuesOf {A} (r : Result A) : list Issue :=
  match r with Ok _ => [] | Err l => l end.

(** A schema whose checks all ran: valid when no issue was raised. *)
Definition finish {A} (issues : list Issue) (data : A) : Result A :=
  match issues with
  | [] => Ok data
  | _ => Err issues
  end.

(** One check of a chain: it adds its issue when the test fails. *)
Definition check (test : bool) (i : Issue) : list Issue :=
  if test then [] else [i].

End Zod.

(* ================================================================== *)
(** ** The schemas *)

Module Schema.
Import Zod.

(** [kingdoms = z.enum([...])] *)
Inductive Kingdom : Type :=
| Animalia | Plantae | Fungi | Protista | Archaea | Bacteria.

(** [FormData = z.infer<typeof speciesSchema>]: the type of the form's
    values and of what validation hands to the submit handler. *)
Record FormData : Type := mkFormData {
  scientific_name : Js.str;
  common_name : option Js.str;
  kingdom : Kingdom;
  total_population : option Js.number;
  image : option Js.str;
  description : option Js.str
}.

(** [(val) => (!val || val.trim() === "" ? null : val.trim())] *)
Definition emptyToNull (val : option Js.str) : option Js.str :=
  match val with
  | None => None
  | Some s =>
      if (Js.falsy s || Js.eqb (Js.trim s) [])%bool then None
      else Some (Js.trim s)
  end.

(** [z.string().trim().min(1).transform((val) => val?.trim())] *)
Definition scientific_name_schema (val : Js.str) : Result Js.str :=
  let trimmed := Js.trim val in
  finish
    (check (Nat.leb 1 (List.length trimmed))
       (mkIssue "scientific_name" too_small None))
    (Js.trim trimmed).

(** [z.string().nullable().transform(...)], for [common_name] and
    [description]. *)
Definition optional_text_schema (val : option Js.str)
  : Result (option Js.str) :=
  Ok (emptyToNull val).

(** [z.number().int().positive().min(1).nullable()] *)
Definition total_population_issues (n : Js.number) : list Issue :=
  match n with
  | Js.NaN => [mkIssue "total_population" invalid_type None]
  | _ =>
      check (Js.isInteger n) (mkIssue "total_population" invalid_type None)
      ++ check (Js.gt n 0) (mkIssue "total_population" too_small None)
      ++ check (Js.ge n 1) (mkIssue "total_population" too_small None)
  end.

Definition total_population_schema (val : option Js.number)
  : Result (option Js.number) :=
  match val with
  | None => Ok None
  | Some n => finish (total_population_issues n) (Some n)
  end.

Section Species.
Variable after_scheme : Js.str -> Js.str -> bool.

  (** [z.string().url().nullable().transform(...)]: the URL check is part
      of the string schema, which [nullable] wraps; the transform runs on
      what that accepts. *)
Definition image_schema (val : option Js.str) : Result (option Js.str) :=
    match val with
    | None => Ok (emptyToNull None)
    | Some s =>
        finish
          (check (Url.constructs after_scheme s)
             (mkIssue "image" invalid_string_url None))
          (emptyToNull (Some s))
    end.

  (** [speciesSchema = z.object({...})]: every field is parsed, the issues
      are collected in the order of the keys. *)
Definition speciesSchema (input : FormData) : Result FormData :=
    let r1 := scientific_name_schema (scientific_name input) in
    let r2 := optional_text_schema (common_name input) in
    let r4 := total_population_schema (total_population input) in
    let r5 := image_schema (image input) in
    let r6 := optional_text_schema (description input) in
    match r1, r2, r4, r5, r6 with
    | Ok v1, Ok v2, Ok v4, Ok v5, Ok v6 =>
        Ok (mkFormData v1 v2 (kingdom input) v4 v5 v6)
    | _, _, _, _, _ =>
        Err (issuesOf r1 ++ issuesOf r2 ++ issuesOf r4
             ++ issuesOf r5 ++ issuesOf r6)
    end.
End Species.

(** [CommentFormData = z.infer<typeof commentFormSchema>] *)
Record CommentFormData : Type := mkCommentFormData { content : Js.str }.

Definition msg_min : Js.str :=
  Js.lit "Comment must be at least 1 character.".
Definition msg_max : Js.str :=
  Js.lit "Comment must not be longer than 150 characters.".
Definition msg_blank : Js.str :=
  Js.lit "String cannot be empty or contain only whitespace".

(** [z.string().min(1, ..).max(150, ..).refine(..).transform(..)]: the two
    length checks look at the string as typed; the refinement runs on it
    as well, whatever the length checks said; the transform runs when no
    issue was raised. *)
Definition content_issues (val : Js.str) : list Issue :=
  check (Nat.leb 1 (List.length val)) (mkIssue "content" too_small (Some msg_min))
  ++ check (Nat.leb (List.length val) 150)
       (mkIssue "content" too_big (Some msg_max))
  ++ check (negb (Js.eqb (Js.trim val) []))
       (mkIssue "content" custom (Some msg_blank)).

Definition commentFormSchema (input : CommentFormData)
  : Result CommentFormData :=
  finish (content_issues (content input))
    (mkCommentFormData (Js.trim (content input))).

End Schema.

(* ================================================================== *)
(** ** Rows of the two tables *)

Module Species.
Record t : Type := mk {
  id : Z;
  scientific_name : Js.str;
  common_name : option Js.str;
  kingdom : Schema.Kingdom;
  total_population : option Js.number;
  image : option Js.str;
  description : option Js.str;
  author : Js.str
}.
End Species.

Module Comment.
Record t : Type := mk {
  id : Z;
  created_at : Js.str;
  content : Js.str;
  author : Js.str;
  species : Z;
  display_name : option Js.str
}.
End Comment.

(* ================================================================== *)
(** ** What a handler can do: state, prompt, Supabase, refresh, toast *)

Module Ui.

Inductive ToastVariant : Type := default | destructive.

Record ToastArgs : Type := mkToast {
  title : Js.str;
  description : Js.str;
  variant : ToastVariant
}.

Record PostgrestError : Type := mkError { message : Js.str }.

(** The Supabase queries the handlers build. *)
Inductive Query : Type :=
| species_update (input : Schema.FormData) (id : Z)
| species_delete (id : Z)
| comments_insert (author content : Js.str) (species : Z)
| comments_delete (id : Z).

Inductive Effect : Type :=
| Confirm (msg : Js.str)
| Supabase (q : Query)
| RouterRefresh
| Toast (t : ToastArgs).

(** What the outside answers: the user to a prompt, the store to a
    query ([None]: no error). *)
Record World : Type := mkWorld {
  confirm_answer : Js.str -> bool;
  supabase_error : Query -> option PostgrestError
}.

Section Handler.
Variable S : Type.

  (** A handler reads the world, updates the component state and leaves a
      trace of effects. *)
Definition Handler (A : Type) : Type :=
    World -> S -> A * S * list Effect.

Definition ret {A} (a : A) : Handler A := fun _ s => (a, s, []).

Definition bind {A B} (m : Handler A) (k : A -> Handler B) : Handler B :=
    fun w s =>
      let '(a, s1, t1) := m w s in
      let '(b, s2, t2) := k a w s1 in
      (b, s2, t1 ++ t2).

Definition get : Handler S := fun _ s => (s, s, []).
Definition modify (f : S -> S) : Handler unit := fun _ s => (tt, f s, []).

Definition window_confirm (msg : Js.str) : Handler bool :=
    fun w s => (confirm_answer w msg, s, [Confirm msg]).

Definition supabase (q : Query) : Handler (option PostgrestError) :=
    fun w s => (supabase_error w q, s, [Supabase q]).

Definition router_refresh : Handler unit :=
    fun _ s => (tt, s, [RouterRefresh]).

Definition toast (t : ToastArgs) : Handler unit :=
    fun _ s => (tt, s, [Toast t]).

Definition state_after {A} (r : A * S * list Effect) : S := snd (fst r).
Definition trace_of {A} (r : A * S * list Effect) : list Effect := snd r.
End Handler.

Arguments ret {S A} a.
Arguments bind {S A B} m k.
Arguments get {S}.
Arguments modify {S} f.
Arguments window_confirm {S} msg.
Arguments supabase {S} q.
Arguments router_refresh {S}.
Arguments toast {S} t.
Arguments state_after {S A} r.
Arguments trace_of {S A} r.

(** A handler of a stateless child component, run inside its parent. *)
Definition lift {S A} (h : Handler unit A) : Handler S A :=
  fun w s => let '(a, _, t) := h w tt in (a, s, t).

(** React Hook Form's [useForm]: current values, default values, and the
    errors of the last validation.  The form object belongs to the
    component, so it lives as long as the component does, whichever of
    its fields are on screen ([shouldUnregister] is left at its default:
    the value of a field that is taken off screen is kept). *)
Record UseForm (T : Type) : Type := mkForm {
  values : T;
  defaultValues : T;
  errors : list Zod.Issue
}.

Definition useForm {T} (defaults : T) : UseForm T :=
  mkForm defaults defaults [].

(** [form.reset(v)]: the values and the default values both become [v]. *)
Definition reset {T} (v : T) (f : UseForm T) : UseForm T :=
  mkForm v v [].

(** A change of a field, with [mode: "onChange"]: the new values are
    validated at once. *)
Definition change {T} (resolver : T -> Zod.Result T) (v : T)
    (f : UseForm T) : UseForm T :=
  mkForm v (defaultValues f) (Zod.issuesOf (resolver v)).

(** Whether any commit was made to the store. *)
Definition is_query (e : Effect) : bool :=
  match e with Supabase _ => true | _ => false end.

Definition is_confirm (e : Effect) : bool :=
  match e with Confirm _ => true | _ => false end.

Inductive Phase : Type := Closed | Viewing | Editing.

End Ui.

Declare Scope handler_scope.
Delimit Scope handler_scope with handler.
Notation "x <- m ;; k" := (Ui.bind m (fun x => k))
(at level 61, m at next level, right associativity) : handler_scope.
Notation "m ;;; k" := (Ui.bind m (fun _ => k))
(at level 61, right associativity) : handler_scope.

Module Rhf.
Import Ui.

(** [form.handleSubmit(onValid)]: the resolver validates the current
    values; [onValid] is called with the resolver's output when there is
    no issue, and not called otherwise. *)
Definition handleSubmit {S T} (form : S -> UseForm T)
    (setForm : UseForm T -> S -> S) (resolver : T -> Zod.Result T)
    (onValid : T -> Handler S unit) : Handler S unit :=
  (s <- get ;;
   let f := form s in
   match resolver (values f) with
   | Zod.Ok data =>
       modify (setForm (mkForm (values f) (defaultValues f) [])) ;;;
       onValid data
   | Zod.Err issues =>
       modify (setForm (mkForm (values f) (defaultValues f) issues))
   end)%handler.

(** [s.slice(0, 25).trim() + (s.length > 25 ? "..." : "")] *)
Definition excerpt (s : Js.str) : Js.str :=
  Js.trim (Js.slice0 25 s)
  ++ (if Nat.ltb 25 (List.length s) then Js.lit "..." else []).

Definition dquote : Js.str := [34%N].

Definition something_went_wrong (e : PostgrestError) : ToastArgs :=
  mkToast (Js.lit "Something went wrong.") (message e) destructive.

End Rhf.

(* ================================================================== *)
(** ** [comment-card.tsx] *)

Module CommentCard.
Import Ui Rhf.

Record Props : Type := mkProps {
  comment : Comment.t;
  userId : Js.str
}.

Definition handleDelete (p : Props) : Handler unit unit :=
  (ok <- window_confirm
           (Js.lit "Are you sure you want to delete this comment?") ;;
   if negb ok then ret tt
   else
     error <- supabase (comments_delete (Comment.id (comment p))) ;;
     match error with
     | Some e => toast (something_went_wrong e)
     | None =>
         router_refresh ;;;
         toast (mkToast (Js.lit "Comment Deleted")
                  (Js.lit "Successfully deleted " ++ dquote
                   ++ excerpt (Comment.content (comment p)) ++ dquote)
                  default)
     end)%handler.

(** [{userId == comment.author && <Button ... onClick={handleDelete}>}] *)
Definition delete_rendered (p : Props) : bool :=
  Js.eqb (userId p) (Comment.author (comment p)).

End CommentCard.

(* ================================================================== *)
(** ** [src/app/species/species-details-dialog.tsx] *)

Module DetailsDialog.
Import Ui Rhf Schema.

Record Props : Type := mkProps {
  species : Species.t;
  userId : Js.str
}.

Record State : Type := mkState {
  isEditing : bool;
  open : bool;
  form : UseForm FormData
}.

Definition defaultValues (p : Props) : FormData :=
  let sp := species p in
  mkFormData (Species.scientific_name sp) (Species.common_name sp)
    (Species.kingdom sp) (Species.total_population sp)
    (Species.image sp) (Species.description sp).

Definition init (p : Props) : State :=
  mkState false false (useForm (defaultValues p)).

Definition phase (s : State) : Phase :=
  if open s then (if isEditing s then Editing else Viewing) else Closed.

Definition setIsEditing (b : bool) : Handler State unit :=
  modify (fun s => mkState b (open s) (form s)).
Definition setOpen (b : bool) : Handler State unit :=
  modify (fun s => mkState (isEditing s) b (form s)).
Definition setForm (f : UseForm FormData) (s : State) : State :=
  mkState (isEditing s) (open s) f.

Definition flipEditing : Handler State unit :=
  (s <- get ;; setIsEditing (negb (isEditing s)))%handler.

Definition onSaveChanges (p : Props) (input : FormData)
  : Handler State unit :=
  (error <- supabase (species_update input (Species.id (species p))) ;;
   match error with
   | Some e => toast (something_went_wrong e)
   | None =>
       setIsEditing false ;;;
       modify (fun s => setForm (reset input (form s)) s) ;;;
       router_refresh ;;;
       toast (mkToast (Js.lit "Species Details Edited!")
                (Js.lit "Successfully edited " ++ scientific_name input
                 ++ Js.lit ".")
                default)
   end)%handler.

Definition handleOpenChange (o : bool) : Handler State unit :=
  (setIsEditing false ;;; setOpen o)%handler.

Definition handleCancel : Handler State unit :=
  (ok <- window_confirm (Js.lit "All changes will be discarded.") ;;
   if negb ok then ret tt else flipEditing)%handler.

Section Machine.
Variable after_scheme : Js.str -> Js.str -> bool.
Variable StringNumericLiteral : Js.str -> Js.number.

Definition resolver : FormData -> Zod.Result FormData :=
    speciesSchema after_scheme.

  (** [onChange={(event) => field.onChange(+event.target.value)}] *)
Definition total_population_onChange (value : Js.str) (v : FormData)
    : FormData :=
    mkFormData (scientific_name v) (common_name v) (kingdom v)
      (Some (Js.unary_plus StringNumericLiteral value))
      (image v) (description v).

  (** What the user can do with what is on screen. *)
Inductive Action : Type :=
  | OpenChange (o : bool)
  | ClickEdit
  | Change (v : FormData)
  | ChangeTotalPopulation (value : Js.str)
  | Submit
  | ClickCancel.

  (** The dialog is modal: closed, only the trigger is there; open, the
      content is, with one of the two branches of [isEditing ? .. : ..].
      The "Edit Species" button of the second branch is unconditional. *)
Definition rendered (p : Props) (s : State) (a : Action) : bool :=
    match a with
    | OpenChange o => negb (Bool.eqb o (open s))
    | ClickEdit => open s && negb (isEditing s)
    | Change _ | ChangeTotalPopulation _ | Submit | ClickCancel =>
        open s && isEditing s
    end.

Definition perform (p : Props) (a : Action) : Handler State unit :=
    match a with
    | OpenChange o => handleOpenChange o
    | ClickEdit => flipEditing
    | Change v => modify (fun s => setForm (change resolver v (form s)) s)
    | ChangeTotalPopulation value =>
        modify (fun s =>
          setForm (change resolver
                     (total_population_onChange value (values (form s)))
                     (form s)) s)
    | Submit => handleSubmit form setForm resolver (onSaveChanges p)
    | ClickCancel => handleCancel
    end.

Definition step (p : Props) (w : World) (a : Action) (s : State) : State :=
    state_after (perform p a w s).

Inductive reachable (p : Props) : State -> Prop :=
  | reach_init : reachable p (init p)
  | reach_step : forall w a s,
      reachable p s -> rendered p s a = true ->
      reachable p (step p w a s).
End Machine.

End DetailsDialog.


(* ================================================================== *)
(** ** [src/unnamed/part_001]: the dialog with ownership, delete and
       comments *)

Module CommentsDialog.
Import Ui Rhf Schema.

Record Props : Type := mkProps {
  species : Species.t;
  comments : list Comment.t;
  userId : Js.str
}.

Record State : Type := mkState {
  isEditing : bool;
  open : bool;
  speciesForm : UseForm FormData;
  commentForm : UseForm CommentFormData
}.

Definition speciesDefaultValues (p : Props) : FormData :=
  let sp := species p in
  mkFormData (Species.scientific_name sp) (Species.common_name sp)
    (Species.kingdom sp) (Species.total_population sp)
    (Species.image sp) (Species.description sp).

Definition commentDefaultValues : CommentFormData := mkCommentFormData [].

Definition init (p : Props) : State :=
  mkState false false (useForm (speciesDefaultValues p))
    (useForm commentDefaultValues).

Definition phase (s : State) : Phase :=
  if open s then (if isEditing s then Editing else Viewing) else Closed.

Definition setIsEditing (b : bool) : Handler State unit :=
  modify (fun s => mkState b (open s) (speciesForm s) (commentForm s)).
Definition setOpen (b : bool) : Handler State unit :=
  modify (fun s => mkState (isEditing s) b (speciesForm s) (commentForm s)).
Definition setSpeciesForm (f : UseForm FormData) (s : State) : State :=
  mkState (isEditing s) (open s) f (commentForm s).
Definition setCommentForm (f : UseForm CommentFormData) (s : State) : State :=
  mkState (isEditing s) (open s) (speciesForm s) f.

Definition flipEditing : Handler State unit :=
  (s <- get ;; setIsEditing (negb (isEditing s)))%handler.

Definition onSaveChanges (p : Props) (input : FormData)
  : Handler State unit :=
  (error <- supabase (species_update input (Species.id (species p))) ;;
   match error with
   | Some e => toast (something_went_wrong e)
   | None =>
       setIsEditing false ;;;
       modify (fun s => setSpeciesForm (reset input (speciesForm s)) s) ;;;
       router_refresh ;;;
       toast (mkToast (Js.lit "Species Details Edited!")
                (Js.lit "Successfully edited " ++ scientific_name input
                 ++ Js.lit ".")
                default)
   end)%handler.

Definition handleOpenChange (o : bool) : Handler State unit :=
  (setIsEditing false ;;; setOpen o)%handler.

Definition handleCancel : Handler State unit :=
  (ok <- window_confirm (Js.lit "All changes will be discarded.") ;;
   if negb ok then ret tt else flipEditing)%handler.

Definition handleDelete (p : Props) : Handler State unit :=
  (ok <- window_confirm
           (Js.lit "Are you sure you want to delete this species?") ;;
   if negb ok then ret tt
   else
     error <- supabase (species_delete (Species.id (species p))) ;;
     match error with
     | Some e => toast (something_went_wrong e)
     | None =>
         router_refresh ;;;
         setOpen false ;;;
         toast (mkToast (Js.lit "Species Deleted")
                  (Js.lit "Successfully deleted "
                   ++ Species.scientific_name (species p) ++ Js.lit ".")
                  default)
     end)%handler.

Definition onPost (p : Props) (input : CommentFormData)
  : Handler State unit :=
  (error <- supabase
              (comments_insert (userId p) (content input)
                 (Species.id (species p))) ;;
   match error with
   | Some e => toast (something_went_wrong e)
   | None =>
       modify (fun s =>
         setCommentForm (reset commentDefaultValues (commentForm s)) s) ;;;
       router_refresh ;;;
       toast (mkToast (Js.lit "Comment Posted!")
                (Js.lit "Successfully commented " ++ dquote
                 ++ excerpt (content input) ++ dquote)
                default)
   end)%handler.

Section Machine.
(** [speciesSchema] is imported from [./add-species-dialog]; the dialog
    works with whatever that schema is. *)
Variable speciesSchema : FormData -> Zod.Result FormData.
Variable StringNumericLiteral : Js.str -> Js.number.

(** [onChange={(event) => field.onChange(+event.target.value)}] *)
Definition total_population_onChange (value : Js.str) (v : FormData)
  : FormData :=
  mkFormData (scientific_name v) (common_name v) (kingdom v)
    (Some (Js.unary_plus StringNumericLiteral value))
    (image v) (description v).

(** What the user can do with what is on screen; a comment card is named by
    its position in [comments]. *)
Inductive Action : Type :=
| OpenChange (o : bool)
| ClickEdit
| ChangeSpecies (v : FormData)
| ChangeTotalPopulation (value : Js.str)
| SubmitSpecies
| ClickCancel
| ClickDeleteSpecies
| ChangeComment (v : CommentFormData)
| SubmitComment
| ClickDeleteComment (i : nat).

(** The dialog is modal: closed, only the trigger is there; open, the
    content is, with one of the two branches of [isEditing ? .. : ..].  The
    species form with "Save Changes", "Cancel" and "Delete Species" is the
    first branch; "Edit Species" (behind [userId == species.author]), the
    comment form and the comment cards are the second. *)
Definition rendered (p : Props) (s : State) (a : Action) : bool :=
  match a with
  | OpenChange o => negb (Bool.eqb o (open s))
  | ChangeSpecies _ | ChangeTotalPopulation _ | SubmitSpecies
  | ClickCancel | ClickDeleteSpecies =>
      open s && isEditing s
  | ClickEdit =>
      open s && negb (isEditing s)
      && Js.eqb (userId p) (Species.author (species p))
  | ChangeComment _ | SubmitComment => open s && negb (isEditing s)
  | ClickDeleteComment i =>
      open s && negb (isEditing s)
      && negb (Nat.eqb (List.length (comments p)) 0)
      && match nth_error (comments p) i with
         | Some c => CommentCard.delete_rendered
                       (CommentCard.mkProps c (userId p))
         | None => false
         end
  end.

(** What a click or a keystroke runs.  Inside a [<form>] a button submits
    the form unless it says [type="button"]: "Cancel" says so; "Save
    Changes" and "Post" submit; "Delete Species" has an [onClick] and no
    [type], so its click runs [handleDelete] and then submits the species
    form as well.  The two requests of that click are answered in the order
    they were sent. *)
Definition perform (p : Props) (a : Action) : Handler State unit :=
  match a with
  | OpenChange o => handleOpenChange o
  | ClickEdit => flipEditing
  | ChangeSpecies v =>
      modify (fun s =>
        setSpeciesForm (change speciesSchema v (speciesForm s)) s)
  | ChangeTotalPopulation value =>
      modify (fun s =>
        setSpeciesForm
          (change speciesSchema
             (total_population_onChange value (values (speciesForm s)))
             (speciesForm s)) s)
  | SubmitSpecies =>
      handleSubmit speciesForm setSpeciesForm speciesSchema (onSaveChanges p)
  | ClickCancel => handleCancel
  | ClickDeleteSpecies =>
      (handleDelete p ;;;
       handleSubmit speciesForm setSpeciesForm speciesSchema
         (onSaveChanges p))%handler
  | ChangeComment v =>
      modify (fun s =>
        setCommentForm (change commentFormSchema v (commentForm s)) s)
  | SubmitComment =>
      handleSubmit commentForm setCommentForm commentFormSchema (onPost p)
  | ClickDeleteComment i =>
      match nth_error (comments p) i with
      | Some c =>
          lift (CommentCard.handleDelete (CommentCard.mkProps c (userId p)))
      | None => ret tt
      end
  end.

Definition step (p : Props) (w : World) (a : Action) (s : State) : State :=
  state_after (perform p a w s).

Inductive reachable (p : Props) : State -> Prop :=
| reach_init : reachable p (init p)
| reach_step : forall w a s,
    reachable p s -> rendered p s a = true ->
    reachable p (step p w a s).
End Machine.

End CommentsDialog.


(* ================================================================== *)
(** ** [src/app/species/page.tsx] *)

Module Page.

Record Session : Type := mkSession { user_id : Js.str }.

(** The props [SpeciesList] gives to a [SpeciesCard]. *)
Record SpeciesCardProps : Type := mkCard {
  species : Species.t;
  comments : list Comment.t;
  userId : Js.str
}.

Inductive Rendered : Type :=
| redirect (to : Js.str)
| cards (l : list SpeciesCardProps).

(** [commentsWithNames?.filter((comment) => comment.species == species.id)
      .map((filteredComment) => filteredComment) ?? []] *)
Definition commentsOf (commentsWithNames : option (list Comment.t))
    (sp : Species.t) : list Comment.t :=
  match commentsWithNames with
  | Some l =>
      map (fun filteredComment => filteredComment)
        (filter (fun comment =>
                   Z.eqb (Comment.species comment) (Species.id sp)) l)
  | None => []
  end.

(** [SpeciesList]: what the three awaited calls returned goes in (the
    session, the rows of [species], the rows of the comments query), what is
    rendered comes out.  [species?.map(..)] renders nothing when there are no
    rows to map. *)
Definition SpeciesList (session : option Session)
    (species_data : option (list Species.t))
    (commentsWithNames : option (list Comment.t)) : Rendered :=
  match session with
  | None => redirect (Js.lit "/")
  | Some session =>
      let sessionId := user_id session in
      cards
        match species_data with
        | Some l =>
            map (fun sp => mkCard sp (commentsOf commentsWithNames sp)
                             sessionId) l
        | None => []
        end
  end.

End Page.

(* ================================================================== *)
(** ** Reading a trace *)

Module Trace.
Import Ui.

Definition is_toast (e : Effect) : bool :=
  match e with Toast _ => true | _ => false end.

Definition is_refresh (e : Effect) : bool :=
  match e with RouterRefresh => true | _ => false end.

Definition queries (t : list Effect) : list Effect := filter is_query t.
Definition toasts (t : list Effect) : list Effect := filter is_toast t.
Definition refreshes (t : list Effect) : list Effect := filter is_refresh t.
Definition prompts (t : list Effect) : list Effect := filter is_confirm t.

(** A string that is empty or whose first code unit fails [p]. *)
Definition starts_clean (p : N -> bool) (s : Js.str) : Prop :=
  match s with
  | [] => True
  | c :: _ => p c = false
  end.

(** What a query and what follows it look like in the handlers: nothing
    sent; sent and refused, then the destructive toast with the error's
    message; sent and accepted, then the refresh and a plain toast. *)
Inductive outcome (w : World) : list Effect -> Prop :=
| nothing : outcome w []
| refused : forall q e,
    supabase_error w q = Some e ->
    outcome w [Supabase q; Toast (Rhf.something_went_wrong e)]
| committed : forall q t,
    supabase_error w q = None -> variant t = default ->
    outcome w [Supabase q; RouterRefresh; Toast t].

(** The whole trace of one user action: at most one prompt, first, and
    nothing after it when the answer is no. *)
Inductive action_trace (w : World) : list Effect -> Prop :=
| unprompted : forall t, outcome w t -> action_trace w t
| prompted : forall m t,
    (confirm_answer w m = false -> t = []) ->
    outcome w t -> action_trace w (Confirm m :: t).


End Trace.

(* ================================================================== *)
(** ** Sample data for the scenarios *)

Module Sample.
Import Ui Schema.

Definition owner : Js.str := Js.lit "user-1".
Definition visitor : Js.str := Js.lit "user-2".

Definition guinea_pig : Species.t :=
  Species.mk 7 (Js.lit "Cavia porcellus") (Some (Js.lit "Guinea pig"))
    Animalia (Some (Js.Finite 300000)) None None owner.

Definition hello : Comment.t :=
  Comment.mk 1 (Js.lit "2024-06-02T15:45:00Z") (Js.lit "Hello") visitor 7
    (Some (Js.lit "Vee")).

(** The form of [guinea_pig] with the scientific name retyped. *)
Definition edited : FormData :=
  mkFormData (Js.lit "Cavia aperea") (Some (Js.lit "Guinea pig"))
    Animalia (Some (Js.Finite 300000)) None None.

Definition denied : PostgrestError := mkError (Js.lit "permission denied").

(** The user says yes and the store accepts; the user says yes and the
    store refuses; the user says no. *)
Definition yes_ok : World := mkWorld (fun _ => true) (fun _ => None).
Definition yes_fail : World :=
  mkWorld (fun _ => true) (fun _ => Some denied).
Definition no : World := mkWorld (fun _ => false) (fun _ => None).

(** The user says yes; the store accepts everything but updates. *)
Definition yes_no_update : World :=
  mkWorld (fun _ => true)
    (fun q => match q with
              | species_update _ _ => Some denied
              | _ => None
              end).

(** Stand-ins for the two platform functions. *)
Definition any_rest : Js.str -> Js.str -> bool := fun _ _ => true.
Definition no_literal : Js.str -> Js.number := fun _ => Js.NaN.

Definition discard_prompt : Js.str := Js.lit "All changes will be discarded.".
Definition delete_species_prompt : Js.str :=
  Js.lit "Are you sure you want to delete this species?".
Definition delete_comment_prompt : Js.str :=
  Js.lit "Are you sure you want to delete this comment?".

End Sample.

(* ================================================================== *)
(** * Properties *)

Unset Implicit Arguments.

(** ** Strings *)

Module JsFacts.
Import Js.

Lemma eqb_nil (s : str) : eqb s [] = true <-> s = [].
Proof.
  destruct s; simpl; split; intro H; try reflexivity; discriminate.
Qed.

Lemma dropWhile_nil p (s : str) :
  dropWhile p s = [] <-> forallb p s = true.
Proof.
  induction s as [|c s IH]; simpl.
  - tauto.
  - destruct (p c); simpl.
    + exact IH.
    + split; discriminate.
Qed.

Lemma dropWhile_In p (s : str) c : In c (dropWhile p s) -> In c s.
Proof.
  induction s as [|d s IH]; simpl; [tauto|].
  destruct (p d); simpl; auto.
Qed.

Lemma dropWhile_length p (s : str) :
  List.length (dropWhile p s) <= List.length s.
Proof.
  induction s as [|d s IH]; simpl; [lia|].
  destruct (p d); simpl; lia.
Qed.

Lemma dropWhile_head p (s : str) c r : dropWhile p s = c :: r -> p c = false.
Proof.
  induction s as [|d s IH]; simpl; [discriminate|].
  destruct (p d) eqn:E; [exact IH|].
  intro H; injection H as -> _; exact E.
Qed.

Lemma forallb_rev p (s : str) : forallb p (rev s) = forallb p s.
Proof.
  induction s as [|d s IH]; simpl; [reflexivity|].
  rewrite forallb_app, IH; simpl.
  rewrite andb_true_r; apply andb_comm.
Qed.

Lemma trim_In (s : str) c : In c (trim s) -> In c s.
Proof.
  unfold trim, trimEnd, trimStart; intro H.
  apply in_rev, dropWhile_In, in_rev in H.
  now apply dropWhile_In in H.
Qed.

Lemma trim_length (s : str) : List.length (trim s) <= List.length s.
Proof.
  unfold trim, trimEnd, trimStart.
  rewrite length_rev.
  etransitivity; [apply dropWhile_length|].
  rewrite length_rev; apply dropWhile_length.
Qed.

(** A string trims to the empty string exactly when it holds nothing but
    white space. *)
Lemma trim_nil (s : str) : trim s = [] <-> forallb is_ws s = true.
Proof.
  unfold trim, trimEnd, trimStart; split; intro H.
  - assert (H1 : dropWhile is_ws (rev (dropWhile is_ws s)) = []).
    { rewrite <- (rev_involutive (dropWhile _ (rev _))), H; reflexivity. }
    apply dropWhile_nil in H1; rewrite forallb_rev in H1.
    destruct (dropWhile is_ws s) as [|c r] eqn:E.
    + now apply dropWhile_nil.
    + apply dropWhile_head in E; simpl in H1.
      rewrite E in H1; discriminate.
  - apply dropWhile_nil in H; rewrite H; reflexivity.
Qed.

Lemma trim_blank_false (s : str) :
  forallb is_ws s = false -> eqb (trim s) [] = false.
Proof.
  intro H; destruct (eqb (trim s) []) eqn:E; [|reflexivity].
  apply eqb_nil, trim_nil in E; congruence.
Qed.

Lemma trim_blank_true (s : str) :
  forallb is_ws s = true -> eqb (trim s) [] = true.
Proof.
  intro H; apply eqb_nil, trim_nil, H.
Qed.

Lemma eqb_refl (s : str) : eqb s s = true.
Proof.
  induction s as [|c s IH]; simpl; [reflexivity|].
  now rewrite N.eqb_refl, IH.
Qed.

Lemma eqb_eq (a b : str) : eqb a b = true <-> a = b.
Proof.
  split; [|intros ->; apply eqb_refl].
  revert b; induction a as [|x a IH]; intros [|y b]; simpl;
    try discriminate; [reflexivity|].
  intro H; apply andb_true_iff in H as [H1 H2].
  apply N.eqb_eq in H1; apply IH in H2; congruence.
Qed.

End JsFacts.

(** ** The URL check on blank strings *)

Module UrlFacts.
Import Js Url.

Lemma ws_not_alpha c : is_ws c = true -> is_ascii_alpha c = false.
Proof.
  unfold is_ws, is_ascii_alpha; intro H.
  rewrite !orb_true_iff, !andb_true_iff, !N.eqb_eq, !N.leb_le in H.
  apply not_true_is_false; intro A.
  rewrite orb_true_iff, !andb_true_iff, !N.leb_le in A.
  lia.
Qed.

Lemma preprocess_In (s : str) c : In c (preprocess s) -> In c s.
Proof.
  unfold preprocess; intro H.
  apply filter_In in H as [H _].
  apply in_rev, JsFacts.dropWhile_In, in_rev in H.
  now apply JsFacts.dropWhile_In in H.
Qed.

(** No scheme can be read off a string of white space: [new URL] throws on
    it, whatever the later states would do. *)
Lemma blank_does_not_construct after_scheme (s : str) :
  forallb is_ws s = true -> constructs after_scheme s = false.
Proof.
  intro H; unfold constructs, scheme_start_state.
  destruct (preprocess s) as [|c r] eqn:E; [reflexivity|].
  assert (Hc : In c s) by (apply preprocess_In; rewrite E; now left).
  rewrite (ws_not_alpha c); [reflexivity|].
  rewrite forallb_forall in H; auto.
Qed.

End UrlFacts.

(** ** The schemas *)

Module SchemaFacts.
Import Zod Schema.

Lemma finish_in {A} (i : Issue) (l : list Issue) (d : A) :
  In i l -> finish l d = Err l.
Proof.
  destruct l; simpl; [tauto | reflexivity].
Qed.

Lemma check_true b i : b = true -> check b i = [].
Proof. intros ->; reflexivity. Qed.

Lemma check_false b i : b = false -> check b i = [i].
Proof. intros ->; reflexivity. Qed.

(** The length checks of the comment schema look at the string as typed:
    one letter followed by 150 spaces trims to a single character, and is
    turned down as too long. *)
Lemma commentFormSchema_padded_rejected :
  let s := Js.lit "a" ++ repeat 32%N 150 in
  forallb Js.is_ws s = false
  /\ List.length (Js.trim s) = 1
  /\ commentFormSchema (mkCommentFormData s)
     = Err [mkIssue "content" too_big (Some msg_max)].
Proof.
  vm_compute; repeat split.
Qed.

Lemma content_blank (s : Js.str) :
  forallb Js.is_ws s = true ->
  exists issues,
    commentFormSchema (mkCommentFormData s) = Err issues
    /\ In (mkIssue "content" custom (Some msg_blank)) issues.
Proof.
  intro B; unfold commentFormSchema, content_issues; simpl content.
  rewrite (JsFacts.trim_blank_true s B).
  eexists; split.
  - apply finish_in with (i := mkIssue "content" custom (Some msg_blank)).
    rewrite ?in_app_iff; simpl; tauto.
  - rewrite ?in_app_iff; simpl; tauto.
Qed.

Lemma content_too_long (s : Js.str) :
  150 < List.length s ->
  exists issues,
    commentFormSchema (mkCommentFormData s) = Err issues
    /\ In (mkIssue "content" too_big (Some msg_max)) issues.
Proof.
  intro H; unfold commentFormSchema, content_issues; simpl content.
  assert (L : Nat.leb (List.length s) 150 = false)
    by (apply Nat.leb_gt; exact H).
  rewrite L.
  eexists; split.
  - apply finish_in with (i := mkIssue "content" too_big (Some msg_max)).
    rewrite ?in_app_iff; simpl; tauto.
  - rewrite ?in_app_iff; simpl; tauto.
Qed.

Lemma content_accepted (s : Js.str) :
  forallb Js.is_ws s = false -> List.length s <= 150 ->
  commentFormSchema (mkCommentFormData s)
  = Ok (mkCommentFormData (Js.trim s)).
Proof.
  intros B L; unfold commentFormSchema, content_issues; simpl content.
  assert (L1 : Nat.leb 1 (List.length s) = true).
  { destruct s; [discriminate | reflexivity]. }
  assert (L2 : Nat.leb (List.length s) 150 = true)
    by (apply Nat.leb_le; exact L).
  rewrite L1, L2, (JsFacts.trim_blank_false s B); reflexivity.
Qed.

(** The empty comment gets the minimum-length issue (and the white-space
    one after it). *)
Lemma content_empty :
  commentFormSchema (mkCommentFormData [])
  = Err [mkIssue "content" too_small (Some msg_min);
         mkIssue "content" custom (Some msg_blank)].
Proof. reflexivity. Qed.

(** C3 (amended).  A comment that is empty or all white space is rejected
    with the minimum-length or the white-space issue; a comment of more than
    150 code units as typed is rejected with the maximum-length issue; a
    comment of at most 150 code units as typed that is not all white space
    is accepted, and the value handed on is the trimmed string. *)
Theorem commentFormSchema_by_length (s : Js.str) :
  (s = [] \/ forallb Js.is_ws s = true ->
   exists issues,
     commentFormSchema (mkCommentFormData s) = Err issues
     /\ (In (mkIssue "content" too_small (Some msg_min)) issues
         \/ In (mkIssue "content" custom (Some msg_blank)) issues))
  /\ (150 < List.length s ->
      exists issues,
        commentFormSchema (mkCommentFormData s) = Err issues
        /\ In (mkIssue "content" too_big (Some msg_max)) issues)
  /\ (forallb Js.is_ws s = false -> List.length s <= 150 ->
      commentFormSchema (mkCommentFormData s)
      = Ok (mkCommentFormData (Js.trim s))).
Proof.
  split; [|split].
  - intros H.
    assert (B : forallb Js.is_ws s = true)
      by (destruct H as [-> | H]; [reflexivity | exact H]).
    destruct (content_blank s B) as [issues [E I]].
    exists issues; split; [exact E | right; exact I].
  - apply content_too_long.
  - apply content_accepted.
Qed.

Lemma commentFormSchema_by_length_witness :
  (exists issues,
     commentFormSchema (mkCommentFormData (Js.lit "  ")) = Err issues
     /\ (In (mkIssue "content" too_small (Some msg_min)) issues
         \/ In (mkIssue "content" custom (Some msg_blank)) issues))
  /\ (exists issues,
        commentFormSchema (mkCommentFormData (repeat 97%N 151)) = Err issues
        /\ In (mkIssue "content" too_big (Some msg_max)) issues)
  /\ commentFormSchema (mkCommentFormData (Js.lit " Hello "))
     = Ok (mkCommentFormData (Js.lit "Hello")).
Proof.
  split; [|split].
  - apply (proj1 (commentFormSchema_by_length (Js.lit "  "))).
    right; reflexivity.
  - apply (proj1 (proj2 (commentFormSchema_by_length (repeat 97%N 151)))).
    rewrite repeat_length; lia.
  - apply (proj2 (proj2 (commentFormSchema_by_length (Js.lit " Hello ")))).
    + reflexivity.
    + simpl; lia.
Defined.

(** The trimmed string is never longer than the typed one: a comment whose
    trimmed length is over 150 is over 150 as typed. *)
Lemma commentFormSchema_trimmed_too_long (s : Js.str) :
  150 < List.length (Js.trim s) ->
  exists issues,
    commentFormSchema (mkCommentFormData s) = Err issues
    /\ In (mkIssue "content" too_big (Some msg_max)) issues.
Proof.
  intro H; apply content_too_long.
  pose proof (JsFacts.trim_length s); lia.
Qed.

(** *** The image field *)

Lemma image_null_accepted after_scheme :
  image_schema after_scheme None = Ok None.
Proof. reflexivity. Qed.

Lemma image_accepted_is_url after_scheme (s : Js.str) v :
  image_schema after_scheme (Some s) = Ok v ->
  Url.constructs after_scheme s = true /\ v = emptyToNull (Some s).
Proof.
  unfold image_schema.
  destruct (Url.constructs after_scheme s); simpl.
  - intro H; injection H as <-; auto.
  - discriminate.
Qed.

(** C4.  An image value that is the empty string or all white space does
    not reach the transform that would turn it into null: the URL check of
    the string schema runs first and turns it down, and with it the whole
    form. *)
Theorem image_blank_is_rejected after_scheme (input : FormData) (s : Js.str) :
  image input = Some s -> forallb Js.is_ws s = true ->
  emptyToNull (Some s) = None
  /\ image_schema after_scheme (Some s)
     = Err [mkIssue "image" invalid_string_url None]
  /\ exists issues,
       speciesSchema after_scheme input = Err issues
       /\ In (mkIssue "image" invalid_string_url None) issues.
Proof.
  intros Hi B.
  assert (E : image_schema after_scheme (Some s)
              = Err [mkIssue "image" invalid_string_url None]).
  { unfold image_schema.
    rewrite (UrlFacts.blank_does_not_construct after_scheme s B).
    reflexivity. }
  split; [|split; [exact E|]].
  - unfold emptyToNull.
    rewrite (JsFacts.trim_blank_true s B), orb_true_r; reflexivity.
  - unfold speciesSchema; rewrite Hi, E.
    destruct (scientific_name_schema (scientific_name input)) as [v1|l1];
      destruct (total_population_schema (total_population input))
        as [v4|l4];
      simpl; eexists; (split; [reflexivity|]);
      rewrite ?in_app_iff; simpl; tauto.
Qed.

Lemma image_blank_is_rejected_witness :
  let input :=
    mkFormData (Js.lit "Cavia porcellus") None Animalia None (Some []) None in
  emptyToNull (Some []) = None
  /\ image_schema (fun _ _ => true) (Some [])
     = Err [mkIssue "image" invalid_string_url None]
  /\ exists issues,
       speciesSchema (fun _ _ => true) input = Err issues
       /\ In (mkIssue "image" invalid_string_url None) issues.
Proof.
  apply (image_blank_is_rejected (fun _ _ => true)
           (mkFormData (Js.lit "Cavia porcellus") None Animalia None
              (Some []) None) []); reflexivity.
Defined.

End SchemaFacts.

(** ** The dialog of [part_001] *)

Module CommentsDialogFacts.
Import Ui Rhf Schema CommentsDialog.

(** *** The handlers, case by case *)

Lemma handleOpenChange_eq o w s :
  handleOpenChange o w s
  = (tt, mkState false o (speciesForm s) (commentForm s), []).
Proof. reflexivity. Qed.

Lemma flipEditing_eq w s :
  flipEditing w s
  = (tt, mkState (negb (isEditing s)) (open s) (speciesForm s)
           (commentForm s), []).
Proof. reflexivity. Qed.

(** Cancel asks first; a "no" changes nothing, a "yes" flips the editing
    flag and touches nothing else; the store is not called either way. *)
Lemma handleCancel_eq w s :
  handleCancel w s
  = (tt,
     if confirm_answer w Sample.discard_prompt
     then mkState (negb (isEditing s)) (open s) (speciesForm s)
            (commentForm s)
     else s,
     [Confirm Sample.discard_prompt]).
Proof.
  unfold handleCancel, bind, window_confirm.
  change (Js.lit "All changes will be discarded.") with Sample.discard_prompt.
  destruct (confirm_answer w Sample.discard_prompt); reflexivity.
Qed.

Lemma onSaveChanges_error p input w s e :
  supabase_error w (species_update input (Species.id (species p))) = Some e ->
  onSaveChanges p input w s
  = (tt, s,
     [Supabase (species_update input (Species.id (species p)));
      Toast (mkToast (Js.lit "Something went wrong.") (message e)
               destructive)]).
Proof.
  intro H; unfold onSaveChanges, bind, supabase; rewrite H; reflexivity.
Qed.

Lemma onSaveChanges_success p input w s :
  supabase_error w (species_update input (Species.id (species p))) = None ->
  onSaveChanges p input w s
  = (tt, mkState false (open s) (mkForm input input []) (commentForm s),
     [Supabase (species_update input (Species.id (species p)));
      RouterRefresh;
      Toast (mkToast (Js.lit "Species Details Edited!")
               (Js.lit "Successfully edited " ++ scientific_name input
                ++ Js.lit ".")
               default)]).
Proof.
  intro H; unfold onSaveChanges, bind, supabase; rewrite H; reflexivity.
Qed.

Lemma handleDelete_declined p w s :
  confirm_answer w Sample.delete_species_prompt = false ->
  handleDelete p w s = (tt, s, [Confirm Sample.delete_species_prompt]).
Proof.
  intro H; unfold handleDelete, bind, window_confirm.
  change (Js.lit "Are you sure you want to delete this species?")
    with Sample.delete_species_prompt.
  rewrite H; reflexivity.
Qed.

Lemma handleDelete_error p w s e :
  confirm_answer w Sample.delete_species_prompt = true ->
  supabase_error w (species_delete (Species.id (species p))) = Some e ->
  handleDelete p w s
  = (tt, s,
     [Confirm Sample.delete_species_prompt;
      Supabase (species_delete (Species.id (species p)));
      Toast (mkToast (Js.lit "Something went wrong.") (message e)
               destructive)]).
Proof.
  intros H E; unfold handleDelete, bind, window_confirm, supabase.
  change (Js.lit "Are you sure you want to delete this species?")
    with Sample.delete_species_prompt.
  rewrite H; simpl; rewrite E; reflexivity.
Qed.

Lemma handleDelete_success p w s :
  confirm_answer w Sample.delete_species_prompt = true ->
  supabase_error w (species_delete (Species.id (species p))) = None ->
  handleDelete p w s
  = (tt, mkState (isEditing s) false (speciesForm s) (commentForm s),
     [Confirm Sample.delete_species_prompt;
      Supabase (species_delete (Species.id (species p)));
      RouterRefresh;
      Toast (mkToast (Js.lit "Species Deleted")
               (Js.lit "Successfully deleted "
                ++ Species.scientific_name (species p) ++ Js.lit ".")
               default)]).
Proof.
  intros H E; unfold handleDelete, bind, window_confirm, supabase.
  change (Js.lit "Are you sure you want to delete this species?")
    with Sample.delete_species_prompt.
  rewrite H; simpl; rewrite E; reflexivity.
Qed.

Lemma onPost_error p input w s e :
  supabase_error w
    (comments_insert (userId p) (content input) (Species.id (species p)))
  = Some e ->
  onPost p input w s
  = (tt, s,
     [Supabase (comments_insert (userId p) (content input)
                  (Species.id (species p)));
      Toast (mkToast (Js.lit "Something went wrong.") (message e)
               destructive)]).
Proof.
  intro H; unfold onPost, bind, supabase; rewrite H; reflexivity.
Qed.

Lemma onPost_success p input w s :
  supabase_error w
    (comments_insert (userId p) (content input) (Species.id (species p)))
  = None ->
  onPost p input w s
  = (tt,
     mkState (isEditing s) (open s) (speciesForm s)
       (useForm commentDefaultValues),
     [Supabase (comments_insert (userId p) (content input)
                  (Species.id (species p)));
      RouterRefresh;
      Toast (mkToast (Js.lit "Comment Posted!")
               (Js.lit "Successfully commented " ++ dquote
                ++ excerpt (content input) ++ dquote)
               default)]).
Proof.
  intro H; unfold onPost, bind, supabase; rewrite H; reflexivity.
Qed.

(** The submit of the species form, case by case. *)
Lemma species_submit_eq speciesSchema p w s :
  handleSubmit speciesForm setSpeciesForm speciesSchema (onSaveChanges p) w s
  = match speciesSchema (values (speciesForm s)) with
    | Zod.Ok d =>
        match supabase_error w
                (species_update d (Species.id (species p))) with
        | Some e =>
            (tt,
             setSpeciesForm
               (mkForm (values (speciesForm s))
                  (defaultValues (speciesForm s)) []) s,
             [Supabase (species_update d (Species.id (species p)));
              Toast (something_went_wrong e)])
        | None =>
            (tt, mkState false (open s) (mkForm d d []) (commentForm s),
             [Supabase (species_update d (Species.id (species p)));
              RouterRefresh;
              Toast (mkToast (Js.lit "Species Details Edited!")
                       (Js.lit "Successfully edited " ++ scientific_name d
                        ++ Js.lit ".")
                       default)])
        end
    | Zod.Err issues =>
        (tt,
         setSpeciesForm
           (mkForm (values (speciesForm s))
              (defaultValues (speciesForm s)) issues) s,
         [])
    end.
Proof.
  unfold handleSubmit, bind, get; simpl.
  destruct (speciesSchema (values (speciesForm s))) as [d|l]; simpl;
    [|reflexivity].
  destruct (supabase_error w (species_update d (Species.id (species p))))
    eqn:E.
  - rewrite (onSaveChanges_error p d w _ _ E); reflexivity.
  - rewrite (onSaveChanges_success p d w _ E); reflexivity.
Qed.

(** The submit neither opens nor closes the dialog, and the only query it
    sends is the update with what the schema made of the form. *)
Lemma species_submit_facts speciesSchema p w s :
  let r :=
    handleSubmit speciesForm setSpeciesForm speciesSchema (onSaveChanges p)
      w s in
  open (state_after r) = open s
  /\ forall q,
       In (Supabase q) (trace_of r) ->
       exists d,
         speciesSchema (values (speciesForm s)) = Zod.Ok d
         /\ q = species_update d (Species.id (species p)).
Proof.
  intro r; unfold r; rewrite species_submit_eq.
  destruct (speciesSchema (values (speciesForm s))) as [d|l].
  - destruct (supabase_error w _); (split; [reflexivity|]);
      intros q H; simpl in H.
    + destruct H as [H|[H|[]]]; [|discriminate].
      injection H as <-; exists d; split; reflexivity.
    + destruct H as [H|[H|[H|[]]]]; [|discriminate|discriminate].
      injection H as <-; exists d; split; reflexivity.
  - split; [reflexivity | intros q []].
Qed.

(** The state after [handleDelete]: as before, or closed. *)
Lemma handleDelete_state p w s :
  exists o t,
    handleDelete p w s
    = (tt, mkState (isEditing s) o (speciesForm s) (commentForm s), t)
    /\ (o = open s \/ o = false).
Proof.
  destruct (confirm_answer w Sample.delete_species_prompt) eqn:C.
  - destruct (supabase_error w (species_delete (Species.id (species p))))
      eqn:E.
    + rewrite (handleDelete_error p w s _ C E).
      destruct s; simpl; eexists _, _; split; [reflexivity | now left].
    + rewrite (handleDelete_success p w s C E).
      eexists _, _; split; [reflexivity | now right].
  - rewrite (handleDelete_declined p w s C).
    destruct s; simpl; eexists _, _; split; [reflexivity | now left].
Qed.

(** The click on "Delete Species": [handleDelete], then the submit. *)
Lemma delete_click_eq speciesSchema p w s :
  bind (handleDelete p)
    (fun _ =>
       handleSubmit speciesForm setSpeciesForm speciesSchema
         (onSaveChanges p)) w s
  = (let '(_, s1, t1) := handleDelete p w s in
     let '(_, s2, t2) :=
       handleSubmit speciesForm setSpeciesForm speciesSchema
         (onSaveChanges p) w s1 in
     (tt, s2, t1 ++ t2)).
Proof.
  unfold bind at 1.
  destruct (handleDelete p w s) as [[u s1] t1].
  destruct (handleSubmit _ _ _ _ w s1) as [[u' s2] t2]; destruct u'.
  reflexivity.
Qed.

(** *** Ownership *)

Section Ownership.
Variable speciesSchema : FormData -> Zod.Result FormData.
Variable StringNumericLiteral : Js.str -> Js.number.
Variable p : Props.

(** A step leaves the editing flag as it was, clears it, or is one of the
    two clicks that flip it. *)
Lemma step_isEditing w a s :
  let s' := step speciesSchema StringNumericLiteral p w a s in
  isEditing s' = isEditing s \/ isEditing s' = false
  \/ ((a = ClickEdit \/ a = ClickCancel)
      /\ isEditing s' = negb (isEditing s)).
Proof.
  unfold step; destruct a; simpl perform.
  - right; left; reflexivity.
  - right; right; split; [now left | reflexivity].
  - left; reflexivity.
  - left; reflexivity.
  - unfold handleSubmit, bind, get; simpl.
    destruct (speciesSchema (values (speciesForm s))) as [d|l]; simpl.
    + destruct (supabase_error w
                  (species_update d (Species.id (species p)))) eqn:E.
      * rewrite (onSaveChanges_error p d w _ _ E); left; reflexivity.
      * rewrite (onSaveChanges_success p d w _ E); right; left; reflexivity.
    + left; reflexivity.
  - rewrite handleCancel_eq.
    destruct (confirm_answer w Sample.discard_prompt); simpl.
    + right; right; split; [now right | reflexivity].
    + left; reflexivity.
  - rewrite (delete_click_eq speciesSchema p w s).
    destruct (handleDelete_state p w s) as [o [t [-> _]]].
    rewrite species_submit_eq; simpl.
    destruct (speciesSchema (values (speciesForm s))) as [d|l].
    + destruct (supabase_error w _);
        [left; reflexivity | right; left; reflexivity].
    + left; reflexivity.
  - left; reflexivity.
  - unfold handleSubmit, bind, get; simpl.
    destruct (commentFormSchema (values (commentForm s))) as [d|l]; simpl.
    + destruct (supabase_error w
                  (comments_insert (userId p) (content d)
                     (Species.id (species p)))) eqn:E.
      * rewrite (onPost_error p d w _ _ E); left; reflexivity.
      * rewrite (onPost_success p d w _ E); left; reflexivity.
    + left; reflexivity.
  - destruct (nth_error (comments p) i) as [c|]; [|left; reflexivity].
    unfold lift.
    destruct (CommentCard.handleDelete _ w tt) as [[u t] tr].
    left; reflexivity.
Qed.

(** The editing flag is only ever set for the author of the record. *)
Lemma editing_only_for_author s :
  reachable speciesSchema StringNumericLiteral p s ->
  isEditing s = true -> Js.eqb (userId p) (Species.author (species p)) = true.
Proof.
  induction 1 as [|w a s R IH Hr]; [discriminate|].
  intro E.
  destruct (step_isEditing w a s) as [H | [H | [[-> | ->] H]]].
  - apply IH; congruence.
  - congruence.
  - simpl in Hr; apply andb_true_iff in Hr as [_ Hr]; exact Hr.
  - simpl in Hr; apply andb_true_iff in Hr as [_ Hr].
    rewrite H, Hr in E; discriminate.
Qed.

(** So are the "Edit Species" and "Delete Species" buttons. *)
Lemma edit_and_delete_only_for_author s a :
  reachable speciesSchema StringNumericLiteral p s ->
  a = ClickEdit \/ a = ClickDeleteSpecies ->
  rendered p s a = true -> Js.eqb (userId p) (Species.author (species p)) = true.
Proof.
  intros R [-> | ->] H; simpl in H.
  - apply andb_true_iff in H as [_ H]; exact H.
  - apply andb_true_iff in H as [_ H].
    exact (editing_only_for_author s R H).
Qed.

(** A comment card shows its delete button to the comment's author only. *)
Lemma comment_delete_only_for_author s i :
  rendered p s (ClickDeleteComment i) = true ->
  exists c, nth_error (comments p) i = Some c
            /\ Js.eqb (userId p) (Comment.author c) = true.
Proof.
  simpl; intro H; apply andb_true_iff in H as [_ H].
  destruct (nth_error (comments p) i) as [c|]; [|discriminate].
  exists c; split; [reflexivity | exact H].
Qed.

End Ownership.

End CommentsDialogFacts.

(** ** The dialog of [species-details-dialog.tsx] *)

Module DetailsDialogFacts.
Import Ui Rhf Schema DetailsDialog.

Lemma details_handleOpenChange_eq o w s :
  handleOpenChange o w s = (tt, mkState false o (form s), []).
Proof. reflexivity. Qed.

Lemma details_handleCancel_eq w s :
  handleCancel w s
  = (tt,
     if confirm_answer w Sample.discard_prompt
     then mkState (negb (isEditing s)) (open s) (form s)
     else s,
     [Confirm Sample.discard_prompt]).
Proof.
  unfold handleCancel, bind, window_confirm.
  change (Js.lit "All changes will be discarded.") with Sample.discard_prompt.
  destruct (confirm_answer w Sample.discard_prompt); reflexivity.
Qed.

Lemma details_onSaveChanges_error p input w s e :
  supabase_error w (species_update input (Species.id (species p))) = Some e ->
  onSaveChanges p input w s
  = (tt, s,
     [Supabase (species_update input (Species.id (species p)));
      Toast (mkToast (Js.lit "Something went wrong.") (message e)
               destructive)]).
Proof.
  intro H; unfold onSaveChanges, bind, supabase; rewrite H; reflexivity.
Qed.

Lemma details_onSaveChanges_success p input w s :
  supabase_error w (species_update input (Species.id (species p))) = None ->
  onSaveChanges p input w s
  = (tt, mkState false (open s) (mkForm input input []),
     [Supabase (species_update input (Species.id (species p)));
      RouterRefresh;
      Toast (mkToast (Js.lit "Species Details Edited!")
               (Js.lit "Successfully edited " ++ scientific_name input
                ++ Js.lit ".")
               default)]).
Proof.
  intro H; unfold onSaveChanges, bind, supabase; rewrite H; reflexivity.
Qed.

(** In this file nothing on screen depends on [userId]. *)
Lemma rendered_ignores_userId sp u1 u2 s a :
  rendered (mkProps sp u1) s a = rendered (mkProps sp u2) s a.
Proof. destruct a; reflexivity. Qed.

(** *** Zero as total population *)

Lemma zero_is_not_positive q :
  (q == 0)%Q -> Js.gt (Js.Finite q) 0 = false.
Proof.
  unfold Qeq; simpl; intro H.
  apply Z.ltb_ge; lia.
Qed.

Lemma total_population_zero_rejected q :
  (q == 0)%Q ->
  exists issues,
    total_population_schema (Some (Js.Finite q)) = Zod.Err issues
    /\ In (Zod.mkIssue "total_population" Zod.too_small None) issues.
Proof.
  intro H; unfold total_population_schema, total_population_issues.
  rewrite (zero_is_not_positive q H).
  eexists; split.
  - apply SchemaFacts.finish_in
      with (i := Zod.mkIssue "total_population" Zod.too_small None).
    rewrite ?in_app_iff; simpl; tauto.
  - rewrite ?in_app_iff; simpl; tauto.
Qed.

Lemma speciesSchema_zero_rejected after_scheme (v : FormData) q :
  total_population v = Some (Js.Finite q) -> (q == 0)%Q ->
  exists issues,
    speciesSchema after_scheme v = Zod.Err issues
    /\ In (Zod.mkIssue "total_population" Zod.too_small None) issues.
Proof.
  intros Hv Hq.
  destruct (total_population_zero_rejected q Hq) as [l [E I]].
  unfold speciesSchema; rewrite Hv, E.
  destruct (scientific_name_schema (scientific_name v)) as [v1|l1];
    destruct (image_schema after_scheme (image v)) as [v5|l5];
    simpl; eexists; (split; [reflexivity|]);
    rewrite ?in_app_iff; simpl; tauto.
Qed.

(** An emptied number input hands 0 to the form. *)
Lemma emptied_input_is_zero StringNumericLiteral (value : Js.str) v :
  forallb Js.is_ws value = true ->
  total_population (total_population_onChange StringNumericLiteral value v)
  = Some Js.zero.
Proof.
  intro B; unfold total_population_onChange, Js.unary_plus; simpl.
  apply JsFacts.trim_nil in B; rewrite B; reflexivity.
Qed.

End DetailsDialogFacts.

(** ** The workflow *)

Module Workflow.
Import Ui Rhf Schema.

(** *** Ownership gate *)

(** C1.  In [species-details-dialog.tsx] the "Edit Species" button is there
    for everybody: a user who is not the author of the record opens the
    dialog, clicks it, and is in the editing state. *)
Theorem details_dialog_edit_is_ungated after_scheme StringNumericLiteral w :
  let p := DetailsDialog.mkProps Sample.guinea_pig Sample.visitor in
  let step := DetailsDialog.step after_scheme StringNumericLiteral p w in
  let s1 := step (DetailsDialog.OpenChange true) (DetailsDialog.init p) in
  let s2 := step DetailsDialog.ClickEdit s1 in
  Js.eqb (DetailsDialog.userId p) (Species.author (DetailsDialog.species p))
  = false
  /\ DetailsDialog.rendered p s1 DetailsDialog.ClickEdit = true
  /\ DetailsDialog.reachable after_scheme StringNumericLiteral p s2
  /\ DetailsDialog.phase s2 = Editing.
Proof.
  intros p step s1 s2.
  split; [reflexivity|]. split; [reflexivity|]. split; [|reflexivity].
  unfold s2, s1, step.
  apply DetailsDialog.reach_step; [|reflexivity].
  apply DetailsDialog.reach_step; [|reflexivity].
  apply DetailsDialog.reach_init.
Qed.

(** *** Cancel *)

(** C2.  The author opens the dialog, starts editing and retypes the
    scientific name, then cancels and confirms.  The prompt is the only
    effect and the dialog is back in the viewing state, but the form still
    holds the retyped name, not the saved one, and shows it again at the
    next "Edit Species". *)
Theorem handleCancel_keeps_edits speciesSchema StringNumericLiteral :
  let p := CommentsDialog.mkProps Sample.guinea_pig [] Sample.owner in
  let step :=
    CommentsDialog.step speciesSchema StringNumericLiteral p Sample.yes_ok in
  let s1 :=
    step (CommentsDialog.ChangeSpecies Sample.edited)
      (step CommentsDialog.ClickEdit
         (step (CommentsDialog.OpenChange true) (CommentsDialog.init p))) in
  let r := CommentsDialog.handleCancel Sample.yes_ok s1 in
  CommentsDialog.reachable speciesSchema StringNumericLiteral p s1
  /\ CommentsDialog.phase s1 = Editing
  /\ trace_of r = [Confirm Sample.discard_prompt]
  /\ CommentsDialog.phase (state_after r) = Viewing
  /\ defaultValues (CommentsDialog.speciesForm (state_after r))
     = CommentsDialog.speciesDefaultValues p
  /\ values (CommentsDialog.speciesForm (state_after r)) = Sample.edited
  /\ Sample.edited <> CommentsDialog.speciesDefaultValues p
  /\ values (CommentsDialog.speciesForm
               (step CommentsDialog.ClickEdit (state_after r)))
     = Sample.edited.
Proof.
  intros p step s1 r.
  split.
  { unfold s1, step.
    repeat (apply CommentsDialog.reach_step; [|reflexivity]).
    apply CommentsDialog.reach_init. }
  repeat (split; [reflexivity|]).
  split; [discriminate | reflexivity].
Qed.

(** *** Failed save *)



(** The same in [species-details-dialog.tsx]. *)
Lemma details_onSaveChanges_failure p w s input e :
  supabase_error w
    (species_update input (Species.id (DetailsDialog.species p))) = Some e ->
  let r := DetailsDialog.onSaveChanges p input w s in
  state_after r = s
  /\ trace_of r
     = [Supabase
          (species_update input (Species.id (DetailsDialog.species p)));
        Toast (mkToast (Js.lit "Something went wrong.") (message e)
                 destructive)].
Proof.
  intros He r; unfold r.
  rewrite (DetailsDialogFacts.details_onSaveChanges_error p input w s e He).
  simpl; auto.
Qed.

(** *** Delete *)


(** The click on "Delete Species" submits the form it is in as well: with
    a "no" to the prompt and a form that validates, the update is sent, the
    dialog leaves the editing state and the form takes the submitted
    values. *)
Lemma delete_click_also_submits :
  let p := CommentsDialog.mkProps Sample.guinea_pig [] Sample.owner in
  let s :=
    CommentsDialog.mkState true true
      (mkForm Sample.edited (CommentsDialog.speciesDefaultValues p) [])
      (useForm CommentsDialog.commentDefaultValues) in
  let r :=
    CommentsDialog.perform (fun v => Zod.Ok v) Sample.no_literal p
      CommentsDialog.ClickDeleteSpecies Sample.no s in
  trace_of r
  = [Confirm Sample.delete_species_prompt;
     Supabase (species_update Sample.edited 7);
     RouterRefresh;
     Toast (mkToast (Js.lit "Species Details Edited!")
              (Js.lit "Successfully edited Cavia aperea.") default)]
  /\ CommentsDialog.phase (state_after r) = Viewing.
Proof.
  vm_compute; split; reflexivity.
Qed.



(** A delete that the store accepts closes the dialog; when the update sent
    by the same click is refused, or the form does not validate, the editing
    flag is still set: a session can end while editing. *)
Lemma closed_while_editing_is_reachable speciesSchema StringNumericLiteral :
  let p := CommentsDialog.mkProps Sample.guinea_pig [] Sample.owner in
  exists s,
    CommentsDialog.reachable speciesSchema StringNumericLiteral p s
    /\ CommentsDialog.open s = false
    /\ CommentsDialog.isEditing s = true.
Proof.
  intro p.
  exists (CommentsDialog.step speciesSchema StringNumericLiteral p
            Sample.yes_no_update CommentsDialog.ClickDeleteSpecies
            (CommentsDialog.step speciesSchema StringNumericLiteral p
               Sample.yes_ok CommentsDialog.ClickEdit
               (CommentsDialog.step speciesSchema StringNumericLiteral p
                  Sample.yes_ok (CommentsDialog.OpenChange true)
                  (CommentsDialog.init p)))).
  split.
  { repeat (apply CommentsDialog.reach_step; [|reflexivity]).
    apply CommentsDialog.reach_init. }
  set (s0 := CommentsDialog.step speciesSchema StringNumericLiteral p
               Sample.yes_ok CommentsDialog.ClickEdit _).
  assert (E0 : CommentsDialog.isEditing s0 = true) by reflexivity.
  clearbody s0.
  unfold CommentsDialog.step; simpl CommentsDialog.perform.
  rewrite CommentsDialogFacts.delete_click_eq.
  rewrite CommentsDialogFacts.handleDelete_success by reflexivity.
  rewrite CommentsDialogFacts.species_submit_eq.
  destruct (speciesSchema _) as [d|l]; simpl; split; auto.
Qed.

(** *** Open and close *)

(** C7.  Whatever the state, the editing flag included, [handleOpenChange]
    with [true] leaves the dialog in the viewing state, in both dialogs. *)
Theorem open_yields_viewing :
  (forall w s,
     let r := CommentsDialog.handleOpenChange true w s in
     CommentsDialog.phase (state_after r) = Viewing
     /\ CommentsDialog.isEditing (state_after r) = false)
  /\ (forall w s,
        let r := DetailsDialog.handleOpenChange true w s in
        DetailsDialog.phase (state_after r) = Viewing
        /\ DetailsDialog.isEditing (state_after r) = false).
Proof.
  split; intros w s; split; reflexivity.
Qed.

(** Closed, the trigger is all there is to click. *)
Lemma closed_only_opens p s a :
  CommentsDialog.phase s = Closed ->
  CommentsDialog.rendered p s a = true ->
  a = CommentsDialog.OpenChange true.
Proof.
  unfold CommentsDialog.phase; intros H R.
  destruct (CommentsDialog.open s) eqn:O.
  - destruct (CommentsDialog.isEditing s); discriminate.
  - destruct a; simpl in R; rewrite O in R; simpl in R; try discriminate.
    destruct o; [reflexivity | discriminate].
Qed.

(** C10.  In the editing state the dialog can be closed, and
    [handleOpenChange] with [false] then clears the editing flag and closes
    with no effect at all: no prompt, no query.  The cancel button of the
    same state does prompt.  The same holds in both dialogs. *)
Theorem close_while_editing_unguarded :
  (forall p w s,
     CommentsDialog.phase s = Editing ->
     let r := CommentsDialog.handleOpenChange false w s in
     CommentsDialog.rendered p s (CommentsDialog.OpenChange false) = true
     /\ CommentsDialog.phase (state_after r) = Closed
     /\ CommentsDialog.isEditing (state_after r) = false
     /\ trace_of r = []
     /\ trace_of (CommentsDialog.handleCancel w s)
        = [Confirm Sample.discard_prompt])
  /\ (forall p w s,
        DetailsDialog.phase s = Editing ->
        let r := DetailsDialog.handleOpenChange false w s in
        DetailsDialog.rendered p s (DetailsDialog.OpenChange false) = true
        /\ DetailsDialog.phase (state_after r) = Closed
        /\ DetailsDialog.isEditing (state_after r) = false
        /\ trace_of r = []
        /\ trace_of (DetailsDialog.handleCancel w s)
           = [Confirm Sample.discard_prompt]).
Proof.
  split; intros p w s H r.
  - unfold CommentsDialog.phase in H.
    destruct (CommentsDialog.open s) eqn:O; [|discriminate].
    rewrite CommentsDialogFacts.handleCancel_eq.
    simpl; rewrite O; repeat split; reflexivity.
  - unfold DetailsDialog.phase in H.
    destruct (DetailsDialog.open s) eqn:O; [|discriminate].
    rewrite DetailsDialogFacts.details_handleCancel_eq.
    simpl; rewrite O; repeat split; reflexivity.
Qed.

Lemma close_while_editing_unguarded_witness :
  let p := CommentsDialog.mkProps Sample.guinea_pig [] Sample.owner in
  let s :=
    CommentsDialog.mkState true true
      (mkForm Sample.edited (CommentsDialog.speciesDefaultValues p) [])
      (useForm CommentsDialog.commentDefaultValues) in
  let p' := DetailsDialog.mkProps Sample.guinea_pig Sample.owner in
  let s' :=
    DetailsDialog.mkState true true
      (mkForm Sample.edited (DetailsDialog.defaultValues p') []) in
  trace_of (CommentsDialog.handleOpenChange false Sample.no s) = []
  /\ trace_of (DetailsDialog.handleOpenChange false Sample.no s') = [].
Proof.
  intros p s p' s'; split.
  - apply (proj1 close_while_editing_unguarded p Sample.no s); reflexivity.
  - apply (proj2 close_while_editing_unguarded p' Sample.no s'); reflexivity.
Defined.

(** *** Posting a comment *)

(** Submitting the comment form hands [onPost] what the schema made of the
    typed content. *)
Lemma submit_comment_valid speciesSchema StringNumericLiteral p w s d :
  commentFormSchema (values (CommentsDialog.commentForm s)) = Zod.Ok d ->
  content d = Js.trim (content (values (CommentsDialog.commentForm s)))
  /\ CommentsDialog.perform speciesSchema StringNumericLiteral p
       CommentsDialog.SubmitComment w s
     = CommentsDialog.onPost p d w
         (CommentsDialog.setCommentForm
            (mkForm (values (CommentsDialog.commentForm s))
               (defaultValues (CommentsDialog.commentForm s)) []) s).
Proof.
  intro H; split.
  - unfold commentFormSchema in H.
    destruct (content_issues _); simpl in H; [|discriminate].
    injection H as <-; reflexivity.
  - simpl; unfold handleSubmit, bind, get, modify; simpl; rewrite H.
    destruct (CommentsDialog.onPost p d w _) as [[u s'] t]; reflexivity.
Qed.

(** [onPost] sends one insert, with the content it was given, the current
    user as author and the species of the dialog.  When the store accepts,
    the comment form is reset to the empty content, the route is refreshed
    and the success toast is shown; when the store refuses, the state is as
    before and the destructive toast is the only other effect. *)
Lemma onPost_sends_comment p w s input :
  let q :=
    comments_insert (CommentsDialog.userId p) (content input)
      (Species.id (CommentsDialog.species p)) in
  let r := CommentsDialog.onPost p input w s in
  (supabase_error w q = None ->
   state_after r
   = CommentsDialog.mkState (CommentsDialog.isEditing s)
       (CommentsDialog.open s) (CommentsDialog.speciesForm s)
       (useForm CommentsDialog.commentDefaultValues)
   /\ content (values (CommentsDialog.commentForm (state_after r))) = []
   /\ trace_of r
      = [Supabase q; RouterRefresh;
         Toast (mkToast (Js.lit "Comment Posted!")
                  (Js.lit "Successfully commented " ++ dquote
                   ++ excerpt (content input) ++ dquote)
                  default)])
  /\ (forall e,
      supabase_error w q = Some e ->
      state_after r = s
      /\ trace_of r
         = [Supabase q;
            Toast (mkToast (Js.lit "Something went wrong.") (message e)
                     destructive)]).
Proof.
  intros q r; unfold r, q; split.
  - intro E.
    rewrite (CommentsDialogFacts.onPost_success p input w s E).
    repeat split; reflexivity.
  - intros e E.
    rewrite (CommentsDialogFacts.onPost_error p input w s e E).
    split; reflexivity.
Qed.

(** Typed with a space on either side, "Hello" passes validation, and what
    the store is sent is "Hello" without them. *)
Lemma post_padded_comment_is_trimmed :
  let p := CommentsDialog.mkProps Sample.guinea_pig [] Sample.visitor in
  let typed := Js.lit " Hello " in
  let s :=
    CommentsDialog.mkState false true
      (useForm (CommentsDialog.speciesDefaultValues p))
      (mkForm (mkCommentFormData typed)
         CommentsDialog.commentDefaultValues []) in
  let r :=
    CommentsDialog.perform (fun v => Zod.Ok v) Sample.no_literal p
      CommentsDialog.SubmitComment Sample.yes_ok s in
  Zod.isOk (commentFormSchema (mkCommentFormData typed)) = true
  /\ CommentsDialog.rendered p s CommentsDialog.SubmitComment = true
  /\ trace_of r
     = [Supabase (comments_insert Sample.visitor (Js.lit "Hello") 7);
        RouterRefresh;
        Toast (mkToast (Js.lit "Comment Posted!")
                 (Js.lit "Successfully commented " ++ dquote
                  ++ Js.lit "Hello" ++ dquote)
                 default)]
  /\ Js.lit "Hello" <> typed.
Proof.
  vm_compute; repeat split; discriminate.
Qed.

(** C8 (amended).  A typed comment that passes validation and is submitted
    by user U on species S makes one insert, with the typed content trimmed
    of leading and trailing white space, author U and species S.  When the
    store accepts, the comment form is reset to the empty content, the route
    is refreshed and the success toast is shown; the dialog keeps no list of
    comments of its own.  When the store refuses, the typed content stays in
    the form and the destructive toast is the only other effect. *)
Theorem post_comment_sends_trimmed speciesSchema StringNumericLiteral p w s :
  let typed := content (values (CommentsDialog.commentForm s)) in
  forallb Js.is_ws typed = false -> List.length typed <= 150 ->
  let q :=
    comments_insert (CommentsDialog.userId p) (Js.trim typed)
      (Species.id (CommentsDialog.species p)) in
  let r :=
    CommentsDialog.perform speciesSchema StringNumericLiteral p
      CommentsDialog.SubmitComment w s in
  (supabase_error w q = None ->
   trace_of r
   = [Supabase q; RouterRefresh;
      Toast (mkToast (Js.lit "Comment Posted!")
               (Js.lit "Successfully commented " ++ dquote
                ++ excerpt (Js.trim typed) ++ dquote)
               default)]
   /\ state_after r
      = CommentsDialog.mkState (CommentsDialog.isEditing s)
          (CommentsDialog.open s) (CommentsDialog.speciesForm s)
          (useForm CommentsDialog.commentDefaultValues))
  /\ (forall e,
      supabase_error w q = Some e ->
      trace_of r
      = [Supabase q;
         Toast (mkToast (Js.lit "Something went wrong.") (message e)
                  destructive)]
      /\ state_after r
         = CommentsDialog.mkState (CommentsDialog.isEditing s)
             (CommentsDialog.open s) (CommentsDialog.speciesForm s)
             (mkForm (values (CommentsDialog.commentForm s))
                (defaultValues (CommentsDialog.commentForm s)) [])).
Proof.
  intros typed B L q r.
  assert (V : commentFormSchema (values (CommentsDialog.commentForm s))
              = Zod.Ok (mkCommentFormData (Js.trim typed))).
  { unfold typed in *.
    destruct (values (CommentsDialog.commentForm s)) as [t]; simpl in *.
    apply SchemaFacts.content_accepted; assumption. }
  destruct (submit_comment_valid speciesSchema StringNumericLiteral p w s _ V)
    as [_ P].
  unfold r; rewrite P; split.
  - intro E.
    rewrite (CommentsDialogFacts.onPost_success p
               (mkCommentFormData (Js.trim typed)) w _ E).
    split; reflexivity.
  - intros e E.
    rewrite (CommentsDialogFacts.onPost_error p
               (mkCommentFormData (Js.trim typed)) w _ e E).
    split; reflexivity.
Qed.

Lemma post_comment_sends_trimmed_witness :
  let p := CommentsDialog.mkProps Sample.guinea_pig [] Sample.visitor in
  let s :=
    CommentsDialog.mkState false true
      (useForm (CommentsDialog.speciesDefaultValues p))
      (mkForm (mkCommentFormData (Js.lit "Hello"))
         CommentsDialog.commentDefaultValues []) in
  trace_of
    (CommentsDialog.perform (fun v => Zod.Ok v) Sample.no_literal p
       CommentsDialog.SubmitComment Sample.yes_ok s)
  = [Supabase (comments_insert Sample.visitor (Js.lit "Hello") 7);
     RouterRefresh;
     Toast (mkToast (Js.lit "Comment Posted!")
              (Js.lit "Successfully commented " ++ dquote
               ++ Js.lit "Hello" ++ dquote)
              default)]
  /\ values
       (CommentsDialog.commentForm
          (state_after
             (CommentsDialog.perform (fun v => Zod.Ok v) Sample.no_literal p
                CommentsDialog.SubmitComment Sample.yes_fail s)))
     = mkCommentFormData (Js.lit "Hello").
Proof.
  intros p s.
  assert (L : List.length (Js.lit "Hello") <= 150) by (simpl; lia).
  split.
  - exact (proj1 (proj1 (post_comment_sends_trimmed (fun v => Zod.Ok v)
                           Sample.no_literal p Sample.yes_ok s eq_refl L)
                    eq_refl)).
  - rewrite (proj2 (proj2 (post_comment_sends_trimmed (fun v => Zod.Ok v)
                             Sample.no_literal p Sample.yes_fail s eq_refl L)
                      Sample.denied eq_refl)).
    reflexivity.
Defined.

(** The scenario from the form: "Hello" typed and submitted by a user on
    the species with id 7. *)
Lemma post_hello_scenario speciesSchema StringNumericLiteral :
  let p := CommentsDialog.mkProps Sample.guinea_pig [] Sample.visitor in
  let step :=
    CommentsDialog.step speciesSchema StringNumericLiteral p Sample.yes_ok in
  let s :=
    step (CommentsDialog.ChangeComment (mkCommentFormData (Js.lit "Hello")))
      (step (CommentsDialog.OpenChange true) (CommentsDialog.init p)) in
  let r :=
    CommentsDialog.perform speciesSchema StringNumericLiteral p
      CommentsDialog.SubmitComment Sample.yes_ok s in
  CommentsDialog.rendered p s CommentsDialog.SubmitComment = true
  /\ trace_of r
     = [Supabase (comments_insert Sample.visitor (Js.lit "Hello") 7);
        RouterRefresh;
        Toast (mkToast (Js.lit "Comment Posted!")
                 (Js.lit "Successfully commented " ++ dquote
                  ++ Js.lit "Hello" ++ dquote)
                 default)]
  /\ content (values (CommentsDialog.commentForm (state_after r))) = [].
Proof.
  vm_compute; repeat split.
Qed.

(** *** Zero as total population *)

(** C9.  With 0 as total population the schema turns the form down, and
    submitting has no effect at all: no query is sent, the dialog stays as
    it is, and the form carries the issue.  An emptied number input is such
    a case: its change handler stores 0. *)
Theorem zero_population_never_saved after_scheme StringNumericLiteral p w :
  (forall s q,
     total_population (values (DetailsDialog.form s)) = Some (Js.Finite q) ->
     (q == 0)%Q ->
     let r :=
       DetailsDialog.perform after_scheme StringNumericLiteral p
         DetailsDialog.Submit w s in
     Zod.isOk (speciesSchema after_scheme (values (DetailsDialog.form s)))
     = false
     /\ trace_of r = []
     /\ DetailsDialog.phase (state_after r) = DetailsDialog.phase s
     /\ values (DetailsDialog.form (state_after r))
        = values (DetailsDialog.form s)
     /\ In (Zod.mkIssue "total_population" Zod.too_small None)
          (errors (DetailsDialog.form (state_after r))))
  /\ (forall s0 value,
        forallb Js.is_ws value = true ->
        let s :=
          DetailsDialog.step after_scheme StringNumericLiteral p w
            (DetailsDialog.ChangeTotalPopulation value) s0 in
        total_population (values (DetailsDialog.form s)) = Some Js.zero
        /\ trace_of
             (DetailsDialog.perform after_scheme StringNumericLiteral p
                DetailsDialog.Submit w s) = []).
Proof.
  assert (Z : forall s q,
            total_population (values (DetailsDialog.form s))
            = Some (Js.Finite q) ->
            (q == 0)%Q ->
            exists issues,
              speciesSchema after_scheme (values (DetailsDialog.form s))
              = Zod.Err issues
              /\ In (Zod.mkIssue "total_population" Zod.too_small None) issues
              /\ DetailsDialog.perform after_scheme StringNumericLiteral p
                   DetailsDialog.Submit w s
                 = (tt,
                    DetailsDialog.setForm
                      (mkForm (values (DetailsDialog.form s))
                         (defaultValues (DetailsDialog.form s)) issues) s,
                    [])).
  { intros s q Hv Hq.
    destruct (DetailsDialogFacts.speciesSchema_zero_rejected after_scheme
                (values (DetailsDialog.form s)) q Hv Hq) as [l [E I]].
    exists l; split; [exact E | split; [exact I|]].
    simpl; unfold handleSubmit, bind, get, modify, DetailsDialog.resolver.
    simpl; rewrite E; reflexivity. }
  split.
  - intros s q Hv Hq r; unfold r.
    destruct (Z s q Hv Hq) as [l [E [I P]]].
    rewrite P, E; simpl; repeat split; auto.
  - intros s0 value B s.
    assert (Hv : total_population (values (DetailsDialog.form s))
                 = Some Js.zero).
    { exact (DetailsDialogFacts.emptied_input_is_zero StringNumericLiteral
               value (values (DetailsDialog.form s0)) B). }
    split; [exact Hv|].
    destruct (Z s 0%Q Hv (Qeq_refl 0)) as [l [_ [_ P]]].
    rewrite P; reflexivity.
Qed.

Lemma zero_population_never_saved_witness :
  let p := DetailsDialog.mkProps Sample.guinea_pig Sample.owner in
  let s0 :=
    DetailsDialog.mkState true true
      (useForm (DetailsDialog.defaultValues p)) in
  let s :=
    DetailsDialog.step Sample.any_rest Sample.no_literal p Sample.yes_ok
      (DetailsDialog.ChangeTotalPopulation []) s0 in
  total_population (values (DetailsDialog.form s)) = Some Js.zero
  /\ trace_of
       (DetailsDialog.perform Sample.any_rest Sample.no_literal p
          DetailsDialog.Submit Sample.yes_ok s) = []
  /\ Zod.isOk (speciesSchema Sample.any_rest (values (DetailsDialog.form s)))
     = false.
Proof.
  intros p s0 s.
  split; [|split].
  - apply (proj2 (zero_population_never_saved Sample.any_rest
                    Sample.no_literal p Sample.yes_ok) s0 []).
    reflexivity.
  - apply (proj2 (zero_population_never_saved Sample.any_rest
                    Sample.no_literal p Sample.yes_ok) s0 []).
    reflexivity.
  - apply (proj1 (zero_population_never_saved Sample.any_rest
                    Sample.no_literal p Sample.yes_ok) s 0%Q);
      reflexivity.
Defined.

End Workflow.


(* ================================================================== *)
(** * Further properties *)

From Stdlib Require Import Sorted.

(** ** Trimming *)

Module TrimFacts.
Import Js Trace.

Lemma dropWhile_fix p (s : str) : starts_clean p s -> dropWhile p s = s.
Proof.
  destruct s as [|c s]; simpl; [reflexivity|].
  intros ->; reflexivity.
Qed.

Lemma dropWhile_starts_clean p (s : str) : starts_clean p (dropWhile p s).
Proof.
  destruct (dropWhile p s) as [|c r] eqn:E; simpl; [exact I|].
  exact (JsFacts.dropWhile_head p s c r E).
Qed.

Lemma dropWhile_split p (s : str) :
  exists pre, s = pre ++ dropWhile p s /\ forallb p pre = true.
Proof.
  induction s as [|c s [pre [E F]]]; simpl.
  - exists []; split; reflexivity.
  - destruct (p c) eqn:C.
    + exists (c :: pre); simpl; rewrite C, F; split; [congruence | reflexivity].
    + exists []; split; reflexivity.
Qed.

(** Dropping at the end keeps a clean start. *)
Lemma drop_end_starts_clean p (t : str) :
  starts_clean p t -> starts_clean p (rev (dropWhile p (rev t))).
Proof.
  intro H.
  destruct (dropWhile_split p (rev t)) as [pre [E _]].
  assert (T : t = rev (dropWhile p (rev t)) ++ rev pre).
  { rewrite <- rev_app_distr, <- E, rev_involutive; reflexivity. }
  destruct (rev (dropWhile p (rev t))) as [|c u]; simpl; [exact I|].
  rewrite T in H; exact H.
Qed.

Lemma trim_starts_clean (s : str) : starts_clean is_ws (trim s).
Proof.
  unfold trim, trimEnd, trimStart.
  apply drop_end_starts_clean, dropWhile_starts_clean.
Qed.

Lemma trim_ends_clean (s : str) : starts_clean is_ws (rev (trim s)).
Proof.
  unfold trim, trimEnd, trimStart.
  rewrite rev_involutive; apply dropWhile_starts_clean.
Qed.

(** Trimming a trimmed string changes nothing. *)
Lemma trim_idempotent (s : str) : trim (trim s) = trim s.
Proof.
  pose proof (trim_starts_clean s) as A.
  pose proof (trim_ends_clean s) as B.
  unfold trim at 1, trimEnd, trimStart.
  rewrite (dropWhile_fix is_ws (trim s) A).
  rewrite (dropWhile_fix is_ws (rev (trim s)) B).
  apply rev_involutive.
Qed.

End TrimFacts.

(** ** What the schemas let through *)

Module AcceptedFacts.
Import Zod Schema.

Lemma commentFormSchema_inv (v d : CommentFormData) :
  commentFormSchema v = Ok d ->
  content d = Js.trim (content v)
  /\ Js.trim (content v) <> []
  /\ List.length (content v) <= 150.
Proof.
  unfold commentFormSchema, content_issues; intro H.
  destruct (Nat.leb 1 (List.length (content v))) eqn:L1;
    [|discriminate].
  destruct (Nat.leb (List.length (content v)) 150) eqn:L2;
    [|discriminate].
  destruct (Js.eqb (Js.trim (content v)) []) eqn:B; [discriminate|].
  simpl in H; injection H as <-; simpl.
  split; [reflexivity|]. split.
  - intro E; rewrite E in B; discriminate.
  - apply Nat.leb_le; exact L2.
Qed.

(** X1.  A comment that the schema accepts comes out as the typed content
    trimmed, not empty, at most 150 code units long, and with no white space
    left to trim at either end. *)
Theorem commentFormSchema_accepted_shape (v d : CommentFormData) :
  commentFormSchema v = Ok d ->
  content d = Js.trim (content v)
  /\ content d <> []
  /\ List.length (content d) <= 150
  /\ Js.trim (content d) = content d.
Proof.
  intro H; destruct (commentFormSchema_inv v d H) as [E [N L]].
  rewrite E; split; [reflexivity|]. split; [exact N|]. split.
  - pose proof (JsFacts.trim_length (content v)); lia.
  - apply TrimFacts.trim_idempotent.
Qed.

Lemma commentFormSchema_accepted_shape_witness :
  let d := mkCommentFormData (Js.lit "Hello") in
  content d = Js.trim (Js.lit "  Hello ")
  /\ content d <> []
  /\ List.length (content d) <= 150
  /\ Js.trim (content d) = content d.
Proof.
  apply (commentFormSchema_accepted_shape
           (mkCommentFormData (Js.lit "  Hello "))
           (mkCommentFormData (Js.lit "Hello"))).
  reflexivity.
Defined.

(** *** Optional text *)

Lemma emptyToNull_some (val : option Js.str) (t : Js.str) :
  emptyToNull val = Some t ->
  t <> [] /\ Js.trim t = t /\ exists s, val = Some s /\ t = Js.trim s.
Proof.
  destruct val as [s|]; simpl; [|discriminate].
  destruct (Js.falsy s || Js.eqb (Js.trim s) [])%bool eqn:E; [discriminate|].
  intro H; injection H as <-.
  apply orb_false_iff in E as [_ E].
  split; [|split].
  - intro N; rewrite N in E; discriminate.
  - apply TrimFacts.trim_idempotent.
  - exists s; split; reflexivity.
Qed.

(** X2.  The transform of the optional text fields gives null for null, for
    the empty string and for white space only, and the trimmed text
    otherwise; applied to its own result it changes nothing. *)
Theorem emptyToNull_normalizes (val : option Js.str) :
  (emptyToNull val = None
   <-> val = None \/ exists s, val = Some s /\ forallb Js.is_ws s = true)
  /\ (forall s, val = Some s -> forallb Js.is_ws s = false ->
      emptyToNull val = Some (Js.trim s))
  /\ emptyToNull (emptyToNull val) = emptyToNull val.
Proof.
  split; [|split].
  - destruct val as [s|]; simpl.
    + destruct (forallb Js.is_ws s) eqn:B.
      * rewrite (JsFacts.trim_blank_true s B), orb_true_r.
        split; [intros _; right; exists s; auto | reflexivity].
      * rewrite (JsFacts.trim_blank_false s B), orb_false_r.
        destruct s as [|c s]; [discriminate|]; simpl.
        split; [discriminate|].
        intros [H | [s' [H B']]]; [discriminate|].
        injection H as <-; congruence.
    + split; [intros _; now left | reflexivity].
  - intros s -> B; simpl.
    rewrite (JsFacts.trim_blank_false s B), orb_false_r.
    destruct s; [discriminate | reflexivity].
  - destruct (emptyToNull val) as [t|] eqn:E; [|reflexivity].
    destruct (emptyToNull_some val t E) as [N [T _]].
    simpl; rewrite T.
    destruct t as [|c t]; [congruence|]; simpl.
    destruct (Js.eqb (c :: t) []) eqn:Q; [|reflexivity].
    apply JsFacts.eqb_nil in Q; discriminate.
Qed.

Lemma emptyToNull_normalizes_witness :
  emptyToNull (Some (Js.lit " Guinea pig "))
  = Some (Js.lit "Guinea pig").
Proof.
  apply (proj1 (proj2 (emptyToNull_normalizes
                         (Some (Js.lit " Guinea pig "))))
           (Js.lit " Guinea pig ")); reflexivity.
Defined.

End AcceptedFacts.

(** ** The species schema *)

Module SpeciesSchemaFacts.
Import Zod Schema.

Lemma isInteger_finite q :
  Js.isInteger (Js.Finite q) = true <-> exists z, (q == inject_Z z)%Q.
Proof.
  unfold Js.isInteger, Qeq; simpl; rewrite Z.eqb_eq; split.
  - intro H; exists (Qnum q / Zpos (Qden q))%Z.
    pose proof (Z.div_mod (Qnum q) (Zpos (Qden q))) as D.
    lia.
  - intros [z H].
    replace (Qnum q) with (z * Zpos (Qden q))%Z by lia.
    apply Z.mod_mul; lia.
Qed.

Lemma total_population_inv (n : Js.number) (v : option Js.number) :
  total_population_schema (Some n) = Ok v ->
  v = Some n
  /\ exists z q, n = Js.Finite q /\ (q == inject_Z z)%Q /\ (1 <= z)%Z.
Proof.
  unfold total_population_schema, total_population_issues.
  destruct n as [|b|q]; [simpl; discriminate | simpl; discriminate |].
  destruct (Js.isInteger (Js.Finite q)) eqn:I; [|simpl; discriminate].
  destruct (Js.gt (Js.Finite q) 0) eqn:G; [|simpl; discriminate].
  destruct (Js.ge (Js.Finite q) 1) eqn:L; [|simpl; discriminate].
  simpl; intro H; injection H as <-.
  split; [reflexivity|].
  destruct (proj1 (isInteger_finite q) I) as [z Hz].
  exists z, q; split; [reflexivity | split; [exact Hz|]].
  unfold Qeq in Hz; simpl in Hz.
  simpl in L; apply Z.leb_le in L; nia.
Qed.

(** X3.  A total population is accepted exactly when it is a whole number
    that is at least 1; NaN, the infinities, fractions, zero and the
    negatives are turned down, and an accepted value is handed on as it
    is. *)
Theorem total_population_accepted (n : Js.number) (v : option Js.number) :
  total_population_schema (Some n) = Ok v
  <-> v = Some n
      /\ exists z q, n = Js.Finite q /\ (q == inject_Z z)%Q /\ (1 <= z)%Z.
Proof.
  split; [apply total_population_inv|].
  intros [-> [z [q [-> [Hz L]]]]].
  unfold total_population_schema, total_population_issues.
  assert (I : Js.isInteger (Js.Finite q) = true)
    by (apply isInteger_finite; exists z; exact Hz).
  unfold Qeq in Hz; simpl in Hz.
  assert (G : Js.gt (Js.Finite q) 0 = true)
    by (simpl; apply Z.ltb_lt; nia).
  assert (E : Js.ge (Js.Finite q) 1 = true)
    by (simpl; apply Z.leb_le; nia).
  rewrite I, G, E; reflexivity.
Qed.

Lemma total_population_accepted_witness :
  total_population_schema (Some (Js.Finite 300000))
  = Ok (Some (Js.Finite 300000)).
Proof.
  apply (proj2 (total_population_accepted (Js.Finite 300000)
                  (Some (Js.Finite 300000)))).
  split; [reflexivity|].
  exists 300000%Z, 300000%Q.
  split; [reflexivity | split; [reflexivity | lia]].
Defined.

Lemma speciesSchema_inv after_scheme (v d : FormData) :
  speciesSchema after_scheme v = Ok d ->
  scientific_name_schema (scientific_name v) = Ok (scientific_name d)
  /\ common_name d = emptyToNull (common_name v)
  /\ kingdom d = kingdom v
  /\ total_population_schema (total_population v) = Ok (total_population d)
  /\ image_schema after_scheme (image v) = Ok (image d)
  /\ description d = emptyToNull (description v).
Proof.
  unfold speciesSchema, optional_text_schema.
  destruct (scientific_name_schema (scientific_name v)) as [v1|l1];
    destruct (total_population_schema (total_population v)) as [v4|l4];
    destruct (image_schema after_scheme (image v)) as [v5|l5];
    try discriminate.
  intro H; injection H as <-; simpl; repeat split; reflexivity.
Qed.

Lemma scientific_name_inv (s t : Js.str) :
  scientific_name_schema s = Ok t -> t = Js.trim s /\ t <> [].
Proof.
  unfold scientific_name_schema.
  destruct (Nat.leb 1 (List.length (Js.trim s))) eqn:L; [|discriminate].
  simpl; intro H; injection H as H.
  rewrite TrimFacts.trim_idempotent in H.
  split; [congruence|].
  rewrite <- H; intro E; rewrite E in L; discriminate.
Qed.

Lemma accepted_population after_scheme (v d : FormData) n :
  speciesSchema after_scheme v = Ok d ->
  total_population d = Some n ->
  total_population v = Some n
  /\ exists z q, n = Js.Finite q /\ (q == inject_Z z)%Q /\ (1 <= z)%Z.
Proof.
  intros H E.
  destruct (speciesSchema_inv after_scheme v d H) as [_ [_ [_ [H4 _]]]].
  rewrite E in H4.
  destruct (total_population v) as [m|]; simpl in H4; [|discriminate].
  destruct (total_population_inv m (Some n) H4) as [Hm R].
  injection Hm as <-; split; [reflexivity | exact R].
Qed.

(** X4.  A species form that the schema accepts comes out with a scientific
    name that is the typed one trimmed and is not empty; with optional texts
    that are null or non-empty and trimmed; with the kingdom as chosen; with
    a total population that is null or a whole number from 1 up; and with an
    image that is null or the trimmed, non-empty text of a string that
    parses as a URL. *)
Theorem speciesSchema_accepted_shape after_scheme (v d : FormData) :
  speciesSchema after_scheme v = Ok d ->
  (scientific_name d = Js.trim (scientific_name v)
   /\ scientific_name d <> [])
  /\ (forall t, common_name d = Some t \/ description d = Some t ->
      t <> [] /\ Js.trim t = t)
  /\ kingdom d = kingdom v
  /\ (forall n, total_population d = Some n ->
      total_population v = Some n
      /\ exists z q, n = Js.Finite q /\ (q == inject_Z z)%Q /\ (1 <= z)%Z)
  /\ (forall u, image d = Some u ->
      u <> [] /\ Js.trim u = u
      /\ exists s, image v = Some s /\ u = Js.trim s
                   /\ Url.constructs after_scheme s = true).
Proof.
  intro H.
  destruct (speciesSchema_inv after_scheme v d H)
    as [H1 [H2 [H3 [H4 [H5 H6]]]]].
  split; [|split; [|split; [exact H3 | split]]].
  - exact (scientific_name_inv _ _ H1).
  - intros t [E | E].
    + rewrite H2 in E.
      destruct (AcceptedFacts.emptyToNull_some _ t E) as [A [B _]]; auto.
    + rewrite H6 in E.
      destruct (AcceptedFacts.emptyToNull_some _ t E) as [A [B _]]; auto.
  - intros n E; exact (accepted_population after_scheme v d n H E).
  - intros u E; rewrite E in H5.
    destruct (image v) as [s|]; [|discriminate].
    destruct (SchemaFacts.image_accepted_is_url after_scheme s (Some u) H5)
      as [C T].
    symmetry in T.
    destruct (AcceptedFacts.emptyToNull_some (Some s) u T)
      as [A [B [s' [S' U]]]].
    injection S' as <-.
    split; [exact A | split; [exact B|]].
    exists s; auto.
Qed.

Lemma speciesSchema_accepted_shape_witness :
  let v :=
    mkFormData (Js.lit " Cavia porcellus ") (Some (Js.lit "  ")) Animalia
      (Some (Js.Finite 300000)) None None in
  let d :=
    mkFormData (Js.lit "Cavia porcellus") None Animalia
      (Some (Js.Finite 300000)) None None in
  scientific_name d = Js.trim (scientific_name v)
  /\ scientific_name d <> [].
Proof.
  intros v d.
  apply (speciesSchema_accepted_shape Sample.any_rest v d).
  reflexivity.
Defined.

(** X5.  The scientific name is required: a typed name that is empty or all
    white space gets the too-small issue on that field, any other is
    accepted and handed on trimmed. *)
Theorem scientific_name_required (s : Js.str) :
  (forallb Js.is_ws s = true ->
   scientific_name_schema s
   = Err [mkIssue "scientific_name" too_small None])
  /\ (forallb Js.is_ws s = false ->
      scientific_name_schema s = Ok (Js.trim s)).
Proof.
  unfold scientific_name_schema; split; intro B.
  - apply JsFacts.trim_nil in B; rewrite B; reflexivity.
  - rewrite TrimFacts.trim_idempotent.
    destruct (Js.trim s) as [|c t] eqn:E; [|reflexivity].
    apply JsFacts.trim_nil in E; congruence.
Qed.

Lemma scientific_name_required_witness :
  scientific_name_schema (Js.lit "   ")
  = Err [mkIssue "scientific_name" too_small None]
  /\ scientific_name_schema (Js.lit " Cavia porcellus ")
     = Ok (Js.lit "Cavia porcellus").
Proof.
  split.
  - apply (proj1 (scientific_name_required (Js.lit "   "))); reflexivity.
  - apply (proj2 (scientific_name_required (Js.lit " Cavia porcellus ")));
      reflexivity.
Defined.

End SpeciesSchemaFacts.

(** ** Toast excerpts *)

Module ExcerptFacts.
Import Rhf.

(** X6.  The excerpt quoted in the "posted" and "deleted" toasts is never
    longer than 28 code units: a text of at most 25 is quoted trimmed and
    whole, a longer one is cut to its first 25, trimmed, and followed by
    three dots. *)
Theorem excerpt_bounded (s : Js.str) :
  List.length (excerpt s) <= 28
  /\ (List.length s <= 25 -> excerpt s = Js.trim s)
  /\ (25 < List.length s ->
      excerpt s = Js.trim (firstn 25 s) ++ Js.lit "..."
      /\ List.length (Js.trim (firstn 25 s)) <= 25).
Proof.
  unfold excerpt, Js.slice0.
  pose proof (JsFacts.trim_length (firstn 25 s)) as T.
  pose proof (firstn_le_length 25 s) as F.
  split; [|split].
  - rewrite length_app.
    destruct (Nat.ltb 25 (List.length s)).
    + change (List.length (Js.lit "...")) with 3; lia.
    + change (List.length (@nil N)) with 0; lia.
  - intro L.
    rewrite firstn_all2 by exact L.
    replace (Nat.ltb 25 (List.length s)) with false
      by (symmetry; apply Nat.ltb_ge; exact L).
    apply app_nil_r.
  - intro L.
    replace (Nat.ltb 25 (List.length s)) with true
      by (symmetry; apply Nat.ltb_lt; exact L).
    split; [reflexivity | lia].
Qed.

Lemma excerpt_bounded_witness :
  excerpt (Js.lit "Hello") = Js.lit "Hello"
  /\ excerpt (Js.lit "The guinea pig or domestic guinea pig")
     = Js.lit "The guinea pig or domesti...".
Proof.
  split.
  - rewrite (proj1 (proj2 (excerpt_bounded (Js.lit "Hello"))));
      [reflexivity | simpl; lia].
  - assert (L : 25 < List.length
                     (Js.lit "The guinea pig or domestic guinea pig"))
      by (simpl; lia).
    rewrite (proj1 (proj2 (proj2 (excerpt_bounded
               (Js.lit "The guinea pig or domestic guinea pig"))) L)).
    reflexivity.
Defined.

End ExcerptFacts.

(** ** Traces *)

Module TraceFacts.
Import Ui Rhf Trace Schema.

(** What can be read off a query and what follows it. *)
Lemma outcome_facts w t :
  outcome w t ->
  prompts t = []
  /\ List.length (queries t) <= 1
  /\ List.length (toasts t) = List.length (queries t)
  /\ (In RouterRefresh t
      <-> exists q, In (Supabase q) t /\ supabase_error w q = None)
  /\ (forall x, In (Toast x) t ->
      (variant x = destructive
       <-> exists q e, In (Supabase q) t /\ supabase_error w q = Some e
                       /\ x = something_went_wrong e)).
Proof.
  intros [|q e E|q x E V]; simpl.
  - split; [reflexivity|]. split; [lia|]. split; [reflexivity|]. split.
    + split; [tauto | intros [q [[] _]]].
    + intros x [].
  - split; [reflexivity|]. split; [lia|]. split; [reflexivity|]. split.
    + split.
      * intros [H|[H|[]]]; discriminate.
      * intros [q' [[H|[H|[]]] N]]; try discriminate.
        injection H as <-; congruence.
    + intros x [H|[H|[]]]; [discriminate|].
      injection H as <-; split; [|reflexivity].
      intros _; exists q, e; auto.
  - split; [reflexivity|]. split; [lia|]. split; [reflexivity|]. split.
    + split.
      * intros _; exists q; auto.
      * intros _; right; now left.
    + intros y [H|[H|[H|[]]]]; try discriminate.
      injection H as <-; split.
      * rewrite V; discriminate.
      * intros [q' [e [[H|[H|[H|[]]]] [N _]]]]; try discriminate.
        injection H as <-; congruence.
Qed.

(** What can be read off the trace of one action. *)
Lemma action_trace_facts w t :
  action_trace w t ->
  List.length (prompts t) <= 1
  /\ List.length (queries t) <= 1
  /\ List.length (toasts t) = List.length (queries t)
  /\ (In RouterRefresh t
      <-> exists q, In (Supabase q) t /\ supabase_error w q = None)
  /\ (forall x, In (Toast x) t ->
      (variant x = destructive
       <-> exists q e, In (Supabase q) t /\ supabase_error w q = Some e
                       /\ x = something_went_wrong e))
  /\ (forall m, In (Confirm m) t -> confirm_answer w m = false ->
      t = [Confirm m]).
Proof.
  intros [t' H | m t' D H];
    destruct (outcome_facts w t' H) as [P [Q [T [R X]]]].
  - rewrite P; split; [simpl; lia|]. split; [exact Q|]. split; [exact T|].
    split; [exact R|]. split; [exact X|].
    intros m I.
    assert (I' : In (Confirm m) (prompts t'))
      by (apply filter_In; split; [exact I | reflexivity]).
    rewrite P in I'; destruct I'.
  - unfold prompts, queries, toasts in *; simpl.
    rewrite P.
    split; [simpl; lia|]. split; [exact Q|]. split; [exact T|].
    split; [|split].
    + split.
      * intros [I|I]; [discriminate|].
        destruct (proj1 R I) as [q [I' N]].
        exists q; split; [right; exact I' | exact N].
      * intros [q [[I|I] N]]; [discriminate|].
        right; apply R; exists q; auto.
    + intros x [I|I]; [discriminate|].
      rewrite (X x I); split.
      * intros [q [e [I' N]]]; exists q, e; split; [right; exact I' | exact N].
      * intros [q [e [[I'|I'] N]]]; [discriminate|].
        exists q, e; auto.
    + intros m' [I|I] A.
      * injection I as <-; rewrite (D A); reflexivity.
      * assert (I' : In (Confirm m') (filter is_confirm t'))
          by (apply filter_In; split; [exact I | reflexivity]).
        rewrite P in I'; destruct I'.
Qed.

(** *** The traces of the handlers *)

Lemma card_handleDelete_eq p w :
  CommentCard.handleDelete p w tt
  = (tt, tt,
     Confirm Sample.delete_comment_prompt
     :: if confirm_answer w Sample.delete_comment_prompt
        then
          match supabase_error w
                  (comments_delete (Comment.id (CommentCard.comment p))) with
          | Some e =>
              [Supabase (comments_delete (Comment.id (CommentCard.comment p)));
               Toast (something_went_wrong e)]
          | None =>
              [Supabase (comments_delete (Comment.id (CommentCard.comment p)));
               RouterRefresh;
               Toast (mkToast (Js.lit "Comment Deleted")
                        (Js.lit "Successfully deleted " ++ dquote
                         ++ excerpt (Comment.content (CommentCard.comment p))
                         ++ dquote)
                        default)]
          end
        else []).
Proof.
  unfold CommentCard.handleDelete, bind, window_confirm, supabase.
  change (Js.lit "Are you sure you want to delete this comment?")
    with Sample.delete_comment_prompt.
  destruct (confirm_answer w Sample.delete_comment_prompt); simpl;
    [|reflexivity].
  destruct (supabase_error w _); reflexivity.
Qed.








Lemma details_perform_shape after_scheme StringNumericLiteral p w a s :
  action_trace w
    (trace_of
       (DetailsDialog.perform after_scheme StringNumericLiteral p a w s)).
Proof.
  destruct a; simpl DetailsDialog.perform;
    try (apply unprompted, nothing).
  - unfold handleSubmit, bind, get; simpl.
    destruct (DetailsDialog.resolver after_scheme _) as [d|l]; simpl;
      [|apply unprompted, nothing].
    destruct (supabase_error w
                (species_update d (Species.id (DetailsDialog.species p))))
      eqn:E.
    + rewrite (DetailsDialogFacts.details_onSaveChanges_error p d w _ _ E).
      apply unprompted, refused; exact E.
    + rewrite (DetailsDialogFacts.details_onSaveChanges_success p d w _ E).
      apply unprompted, committed; [exact E | reflexivity].
  - rewrite DetailsDialogFacts.details_handleCancel_eq.
    apply prompted; [reflexivity | apply nothing].
Qed.

Ltac only_query H :=
  simpl in H;
  repeat match type of H with
         | _ \/ _ => destruct H as [H|H]
         | False => destruct H
         end;
  try discriminate H.

(** What each action of the dialog sends to the store. *)
Lemma comments_perform_queries speciesSchema StringNumericLiteral p w a s q :
  In (Supabase q)
    (trace_of
       (CommentsDialog.perform speciesSchema StringNumericLiteral p a w s)) ->
  ((a = CommentsDialog.SubmitSpecies \/ a = CommentsDialog.ClickDeleteSpecies)
   /\ exists d,
        speciesSchema (values (CommentsDialog.speciesForm s)) = Zod.Ok d
        /\ q = species_update d (Species.id (CommentsDialog.species p)))
  \/ (a = CommentsDialog.ClickDeleteSpecies
      /\ confirm_answer w Sample.delete_species_prompt = true
      /\ q = species_delete (Species.id (CommentsDialog.species p)))
  \/ (a = CommentsDialog.SubmitComment
      /\ exists d,
           commentFormSchema (values (CommentsDialog.commentForm s))
           = Zod.Ok d
           /\ q = comments_insert (CommentsDialog.userId p) (content d)
                    (Species.id (CommentsDialog.species p)))
  \/ (exists i c,
        a = CommentsDialog.ClickDeleteComment i
        /\ nth_error (CommentsDialog.comments p) i = Some c
        /\ confirm_answer w Sample.delete_comment_prompt = true
        /\ q = comments_delete (Comment.id c)).
Proof.
  destruct a; simpl CommentsDialog.perform; intro H;
    try (only_query H; fail).
  - left; split; [left; reflexivity|].
    exact (proj2 (CommentsDialogFacts.species_submit_facts speciesSchema
                    p w s) q H).
  - rewrite CommentsDialogFacts.handleCancel_eq in H; only_query H.
  - rewrite CommentsDialogFacts.delete_click_eq in H.
    destruct (CommentsDialogFacts.handleDelete_state p w s)
      as [o [t [S _]]].
    assert (Q1 : forall q',
               In (Supabase q')
                 (trace_of (CommentsDialog.handleDelete p w s)) ->
               confirm_answer w Sample.delete_species_prompt = true
               /\ q' = species_delete
                         (Species.id (CommentsDialog.species p))).
    { intros q' I.
      destruct (confirm_answer w Sample.delete_species_prompt) eqn:C.
      - split; [reflexivity|].
        destruct (supabase_error w
                    (species_delete (Species.id (CommentsDialog.species p))))
          eqn:E.
        + rewrite (CommentsDialogFacts.handleDelete_error p w s _ C E) in I.
          only_query I; congruence.
        + rewrite (CommentsDialogFacts.handleDelete_success p w s C E) in I.
          only_query I; congruence.
      - rewrite (CommentsDialogFacts.handleDelete_declined p w s C) in I.
        only_query I. }
    rewrite S in H, Q1.
    pose proof (proj2 (CommentsDialogFacts.species_submit_facts
                         speciesSchema p w
                         (CommentsDialog.mkState (CommentsDialog.isEditing s)
                            o (CommentsDialog.speciesForm s)
                            (CommentsDialog.commentForm s))) q) as Q2.
    destruct (handleSubmit _ _ _ _ w _) as [[u s2] t2].
    unfold trace_of in *; simpl in *.
    apply in_app_iff in H as [H|H].
    + right; left; split; [reflexivity|]. exact (Q1 q H).
    + left; split; [right; reflexivity|]. exact (Q2 H).
  - right; right; left; split; [reflexivity|].
    unfold handleSubmit, bind, get in H; simpl in H.
    destruct (commentFormSchema _) as [d|l] eqn:V; simpl in H; [|destruct H].
    exists d; split; [reflexivity|].
    destruct (supabase_error w
                (comments_insert (CommentsDialog.userId p) (content d)
                   (Species.id (CommentsDialog.species p)))) eqn:E.
    + rewrite (CommentsDialogFacts.onPost_error p d w _ _ E) in H.
      only_query H; congruence.
    + rewrite (CommentsDialogFacts.onPost_success p d w _ E) in H.
      only_query H; congruence.
  - right; right; right.
    destruct (nth_error (CommentsDialog.comments p) i) as [c|] eqn:N;
      [|only_query H].
    exists i, c; split; [reflexivity|]. split; [exact N|].
    unfold lift in H; rewrite card_handleDelete_eq in H.
    unfold trace_of in H; simpl in H.
    destruct (confirm_answer w Sample.delete_comment_prompt);
      [|only_query H].
    split; [reflexivity|].
    destruct (supabase_error w _); only_query H; congruence.
Qed.

Lemma details_perform_queries after_scheme StringNumericLiteral p w a s q :
  In (Supabase q)
    (trace_of
       (DetailsDialog.perform after_scheme StringNumericLiteral p a w s)) ->
  a = DetailsDialog.Submit
  /\ exists d,
       speciesSchema after_scheme (values (DetailsDialog.form s)) = Zod.Ok d
       /\ q = species_update d (Species.id (DetailsDialog.species p)).
Proof.
  destruct a; simpl DetailsDialog.perform; intro H;
    try (only_query H; fail).
  - split; [reflexivity|].
    unfold handleSubmit, bind, get, DetailsDialog.resolver in H; simpl in H.
    destruct (speciesSchema after_scheme _) as [d|l] eqn:V; simpl in H;
      [|destruct H].
    exists d; split; [reflexivity|].
    destruct (supabase_error w
                (species_update d (Species.id (DetailsDialog.species p))))
      eqn:E.
    + rewrite (DetailsDialogFacts.details_onSaveChanges_error p d w _ _ E)
        in H.
      only_query H; congruence.
    + rewrite (DetailsDialogFacts.details_onSaveChanges_success p d w _ E)
        in H.
      only_query H; congruence.
  - rewrite DetailsDialogFacts.details_handleCancel_eq in H; only_query H.
Qed.

End TraceFacts.

(** ** One action at a time *)

Module ActionFacts.
Import Ui Rhf Trace Schema TraceFacts.

(** X7.  Deleting a comment from its card: a "no" to the prompt leaves the
    prompt as the only effect; the only query ever sent is the delete of the
    card's own comment, and only after a "yes"; the route is refreshed
    exactly when that delete was sent and accepted; a refused delete is
    followed by the destructive toast and nothing else. *)
Theorem card_delete_outcome (p : CommentCard.Props) (w : World) :
  let m := Sample.delete_comment_prompt in
  let q := comments_delete (Comment.id (CommentCard.comment p)) in
  let t := trace_of (CommentCard.handleDelete p w tt) in
  (confirm_answer w m = false -> t = [Confirm m])
  /\ (forall q', In (Supabase q') t -> q' = q /\ confirm_answer w m = true)
  /\ (In RouterRefresh t
      <-> confirm_answer w m = true /\ supabase_error w q = None)
  /\ (forall e, confirm_answer w m = true -> supabase_error w q = Some e ->
      t = [Confirm m; Supabase q; Toast (something_went_wrong e)]).
Proof.
  intros m q t; unfold t, m, q.
  rewrite card_handleDelete_eq; unfold trace_of; simpl.
  destruct (confirm_answer w Sample.delete_comment_prompt).
  - destruct (supabase_error w _) as [e|].
    + split; [discriminate|]. split; [|split].
      * intros q' H; only_query H; split; congruence.
      * split; [intro H; only_query H | intros [_ H]; discriminate].
      * intros e' _ E; congruence.
    + split; [discriminate|]. split; [|split].
      * intros q' H; only_query H; split; congruence.
      * split; [auto | intros _; right; right; now left].
      * intros e' _ E; discriminate.
  - split; [reflexivity|]. split; [|split].
    + intros q' H; only_query H.
    + split; [intro H; only_query H | intros [H _]; discriminate].
    + intros e H; discriminate.
Qed.

Lemma card_delete_outcome_witness :
  let p := CommentCard.mkProps Sample.hello Sample.visitor in
  trace_of (CommentCard.handleDelete p Sample.no tt)
  = [Confirm Sample.delete_comment_prompt]
  /\ trace_of (CommentCard.handleDelete p Sample.yes_fail tt)
     = [Confirm Sample.delete_comment_prompt; Supabase (comments_delete 1);
        Toast (something_went_wrong Sample.denied)].
Proof.
  intro p; split.
  - apply (proj1 (card_delete_outcome p Sample.no)); reflexivity.
  - apply (proj2 (proj2 (proj2 (card_delete_outcome p Sample.yes_fail)))
             Sample.denied); reflexivity.
Defined.



(** The same discipline in [species-details-dialog.tsx]. *)
Lemma details_one_action_one_query after_scheme StringNumericLiteral
    (p : DetailsDialog.Props) (w : World) (a : DetailsDialog.Action)
    (s : DetailsDialog.State) :
  let t :=
    trace_of
      (DetailsDialog.perform after_scheme StringNumericLiteral p a w s) in
  List.length (queries t) <= 1
  /\ List.length (toasts t) = List.length (queries t)
  /\ (In RouterRefresh t
      <-> exists q, In (Supabase q) t /\ supabase_error w q = None).
Proof.
  intro t.
  destruct (action_trace_facts w t
              (details_perform_shape after_scheme StringNumericLiteral
                 p w a s))
    as [_ [Q [T [R _]]]].
  auto.
Qed.

(** X9.  Every query that a click or a submit sends from a state the dialog
    can be in (the update that the click on "Delete Species" sends
    included) comes from an open dialog and is covered by ownership: an
    update or a delete of the species is for the dialog's own species and
    sent for its author only, the update carrying what the schema made of
    the form and the delete following a "yes"; an inserted comment is
    authored by the current user on the dialog's species, not empty, at most
    150 code units, trimmed; a deleted comment is one of the listed comments,
    authored by the current user, and deleted after a "yes". *)
Theorem queries_are_authorized speciesSchema StringNumericLiteral
    (p : CommentsDialog.Props) (w : World) (s : CommentsDialog.State)
    (a : CommentsDialog.Action) (q : Query) :
  CommentsDialog.reachable speciesSchema StringNumericLiteral p s ->
  CommentsDialog.rendered p s a = true ->
  In (Supabase q)
    (trace_of
       (CommentsDialog.perform speciesSchema StringNumericLiteral p a w s)) ->
  CommentsDialog.open s = true
  /\ match q with
     | species_update d id =>
         id = Species.id (CommentsDialog.species p)
         /\ Js.eqb (CommentsDialog.userId p)
              (Species.author (CommentsDialog.species p)) = true
         /\ speciesSchema (values (CommentsDialog.speciesForm s)) = Zod.Ok d
     | species_delete id =>
         id = Species.id (CommentsDialog.species p)
         /\ Js.eqb (CommentsDialog.userId p)
              (Species.author (CommentsDialog.species p)) = true
         /\ confirm_answer w Sample.delete_species_prompt = true
     | comments_insert author c sp =>
         author = CommentsDialog.userId p
         /\ sp = Species.id (CommentsDialog.species p)
         /\ c <> [] /\ List.length c <= 150 /\ Js.trim c = c
     | comments_delete id =>
         exists c,
           In c (CommentsDialog.comments p) /\ Comment.id c = id
           /\ Js.eqb (CommentsDialog.userId p) (Comment.author c) = true
           /\ confirm_answer w Sample.delete_comment_prompt = true
     end.
Proof.
  intros R Hr H.
  assert (O : CommentsDialog.open s = true).
  { destruct a; simpl in Hr;
      try (apply andb_true_iff in Hr as [Hr _]);
      try (apply andb_true_iff in Hr as [Hr _]);
      try (apply andb_true_iff in Hr as [Hr _]);
      try exact Hr.
    simpl in H; destruct H. }
  split; [exact O|].
  destruct (comments_perform_queries speciesSchema StringNumericLiteral
              p w a s q H)
    as [[A [d [V ->]]]
       | [[-> [C ->]]
         | [[-> [d [V ->]]] | [i [c [-> [N [C ->]]]]]]]].
  - split; [reflexivity|]. split; [|exact V].
    assert (E : CommentsDialog.isEditing s = true)
      by (destruct A as [-> | ->]; simpl in Hr;
          apply andb_true_iff in Hr as [_ E]; exact E).
    exact (CommentsDialogFacts.editing_only_for_author speciesSchema
             StringNumericLiteral p s R E).
  - split; [reflexivity|]. split; [|exact C].
    simpl in Hr; apply andb_true_iff in Hr as [_ E].
    exact (CommentsDialogFacts.editing_only_for_author speciesSchema
             StringNumericLiteral p s R E).
  - split; [reflexivity|]. split; [reflexivity|].
    destruct (AcceptedFacts.commentFormSchema_inv _ d V) as [E [A L]].
    rewrite E; split; [exact A|]. split.
    + pose proof (JsFacts.trim_length
                    (content (values (CommentsDialog.commentForm s)))).
      lia.
    + apply TrimFacts.trim_idempotent.
  - exists c; split; [exact (nth_error_In _ _ N)|].
    split; [reflexivity|]. split; [|exact C].
    destruct (CommentsDialogFacts.comment_delete_only_for_author p s i Hr)
      as [c' [N' E]].
    congruence.
Qed.

Lemma queries_are_authorized_witness :
  let p := CommentsDialog.mkProps Sample.guinea_pig [] Sample.owner in
  let step :=
    CommentsDialog.step (fun v => Zod.Ok v) Sample.no_literal p
      Sample.yes_ok in
  let s :=
    step CommentsDialog.ClickEdit
      (step (CommentsDialog.OpenChange true) (CommentsDialog.init p)) in
  CommentsDialog.open s = true
  /\ 7%Z = Species.id (CommentsDialog.species p)
  /\ Js.eqb (CommentsDialog.userId p)
       (Species.author (CommentsDialog.species p)) = true
  /\ confirm_answer Sample.yes_ok Sample.delete_species_prompt = true.
Proof.
  intros p step s.
  apply (queries_are_authorized (fun v => Zod.Ok v) Sample.no_literal p
           Sample.yes_ok s CommentsDialog.ClickDeleteSpecies
           (species_delete 7)).
  - unfold s, step.
    repeat (apply CommentsDialog.reach_step; [|reflexivity]).
    apply CommentsDialog.reach_init.
  - reflexivity.
  - right; left; reflexivity.
Defined.

(** X10.  In [species-details-dialog.tsx] the only query an action on
    screen can send is the update of the dialog's own species, from the
    editing state, with what the schema made of the form: the scientific
    name sent is never empty and a total population sent is a whole number
    from 1 up. *)
Theorem details_sends_validated after_scheme StringNumericLiteral
    (p : DetailsDialog.Props) (w : World) (s : DetailsDialog.State)
    (a : DetailsDialog.Action) (q : Query) :
  DetailsDialog.rendered p s a = true ->
  In (Supabase q)
    (trace_of
       (DetailsDialog.perform after_scheme StringNumericLiteral p a w s)) ->
  DetailsDialog.phase s = Editing
  /\ exists d,
       q = species_update d (Species.id (DetailsDialog.species p))
       /\ speciesSchema after_scheme (values (DetailsDialog.form s))
          = Zod.Ok d
       /\ scientific_name d <> []
       /\ (forall n, total_population d = Some n ->
           exists z x, n = Js.Finite x /\ (x == inject_Z z)%Q /\ (1 <= z)%Z).
Proof.
  intros Hr H.
  destruct (details_perform_queries after_scheme StringNumericLiteral
              p w a s q H) as [-> [d [V ->]]].
  simpl in Hr; apply andb_true_iff in Hr as [O E].
  split; [unfold DetailsDialog.phase; rewrite O, E; reflexivity|].
  exists d; split; [reflexivity|]. split; [exact V|].
  destruct (SpeciesSchemaFacts.speciesSchema_inv after_scheme _ d V)
    as [H1 _].
  split.
  - exact (proj2 (SpeciesSchemaFacts.scientific_name_inv _ _ H1)).
  - intros n En.
    exact (proj2 (SpeciesSchemaFacts.accepted_population after_scheme
                    _ d n V En)).
Qed.

Lemma details_sends_validated_witness :
  let p := DetailsDialog.mkProps Sample.guinea_pig Sample.owner in
  let s :=
    DetailsDialog.mkState true true
      (useForm (DetailsDialog.defaultValues p)) in
  DetailsDialog.phase s = Editing
  /\ exists d,
       species_update (DetailsDialog.defaultValues p) 7
       = species_update d (Species.id (DetailsDialog.species p))
       /\ speciesSchema Sample.any_rest (values (DetailsDialog.form s))
          = Zod.Ok d
       /\ scientific_name d <> []
       /\ (forall n, total_population d = Some n ->
           exists z x, n = Js.Finite x /\ (x == inject_Z z)%Q /\ (1 <= z)%Z).
Proof.
  intros p s.
  apply (details_sends_validated Sample.any_rest Sample.no_literal p
           Sample.yes_ok s DetailsDialog.Submit).
  - reflexivity.
  - left; reflexivity.
Defined.

(** X11.  Submitting a species form that the schema accepts, with the store
    accepting the update: the editing flag is cleared (an open dialog is in
    the viewing state), the form's values and default values are both what
    the schema made of the form and its errors are cleared, the comment form
    is untouched, and the effects are the update, the refresh and the
    success toast naming the species. *)
Theorem submit_saves speciesSchema StringNumericLiteral
    (p : CommentsDialog.Props) (w : World) (s : CommentsDialog.State)
    (d : FormData) :
  speciesSchema (values (CommentsDialog.speciesForm s)) = Zod.Ok d ->
  supabase_error w
    (species_update d (Species.id (CommentsDialog.species p))) = None ->
  let r :=
    CommentsDialog.perform speciesSchema StringNumericLiteral p
      CommentsDialog.SubmitSpecies w s in
  state_after r
  = CommentsDialog.mkState false (CommentsDialog.open s) (mkForm d d [])
      (CommentsDialog.commentForm s)
  /\ (CommentsDialog.open s = true ->
      CommentsDialog.phase (state_after r) = Viewing)
  /\ trace_of r
     = [Supabase (species_update d (Species.id (CommentsDialog.species p)));
        RouterRefresh;
        Toast (mkToast (Js.lit "Species Details Edited!")
                 (Js.lit "Successfully edited " ++ scientific_name d
                  ++ Js.lit ".")
                 default)].
Proof.
  intros V E r; unfold r; simpl CommentsDialog.perform.
  unfold handleSubmit, bind, get; simpl; rewrite V; simpl.
  rewrite (CommentsDialogFacts.onSaveChanges_success p d w _ E).
  unfold state_after, trace_of; simpl.
  split; [reflexivity|]. split; [|reflexivity].
  intros ->; reflexivity.
Qed.

Lemma submit_saves_witness :
  let p := CommentsDialog.mkProps Sample.guinea_pig [] Sample.owner in
  let s :=
    CommentsDialog.mkState true true
      (mkForm Sample.edited (CommentsDialog.speciesDefaultValues p) [])
      (useForm CommentsDialog.commentDefaultValues) in
  let r :=
    CommentsDialog.perform (fun v => Zod.Ok v) Sample.no_literal p
      CommentsDialog.SubmitSpecies Sample.yes_ok s in
  state_after r
  = CommentsDialog.mkState false true
      (mkForm Sample.edited Sample.edited [])
      (useForm CommentsDialog.commentDefaultValues)
  /\ (true = true -> CommentsDialog.phase (state_after r) = Viewing)
  /\ trace_of r
     = [Supabase (species_update Sample.edited 7);
        RouterRefresh;
        Toast (mkToast (Js.lit "Species Details Edited!")
                 (Js.lit "Successfully edited Cavia aperea.") default)].
Proof.
  intros p s.
  apply (submit_saves (fun v => Zod.Ok v) Sample.no_literal p Sample.yes_ok s
           Sample.edited); reflexivity.
Defined.

(** X12.  In [species-details-dialog.tsx], in every state the dialog can be
    in, the editing flag is set only while the dialog is open, and the
    form's default values are those of the record or values that the schema
    has accepted. *)
Theorem details_invariants after_scheme StringNumericLiteral
    (p : DetailsDialog.Props) (s : DetailsDialog.State) :
  DetailsDialog.reachable after_scheme StringNumericLiteral p s ->
  (DetailsDialog.isEditing s = true -> DetailsDialog.open s = true)
  /\ (defaultValues (DetailsDialog.form s) = DetailsDialog.defaultValues p
      \/ exists v,
           speciesSchema after_scheme v
           = Zod.Ok (defaultValues (DetailsDialog.form s))).
Proof.
  induction 1 as [|w a s R [IH1 IH2] Hr].
  - split; [discriminate | left; reflexivity].
  - unfold DetailsDialog.step.
    destruct a; simpl DetailsDialog.perform; simpl in Hr.
    + split; [discriminate | exact IH2].
    + apply andb_true_iff in Hr as [O _].
      split; [intros _; exact O | exact IH2].
    + split; [exact IH1 | exact IH2].
    + split; [exact IH1 | exact IH2].
    + apply andb_true_iff in Hr as [O _].
      unfold handleSubmit, bind, get, DetailsDialog.resolver; simpl.
      destruct (speciesSchema after_scheme _) as [d|l] eqn:V; simpl.
      * destruct (supabase_error w
                    (species_update d (Species.id (DetailsDialog.species p))))
          eqn:E.
        -- rewrite (DetailsDialogFacts.details_onSaveChanges_error
                      p d w _ _ E).
           split; [intros _; exact O | exact IH2].
        -- rewrite (DetailsDialogFacts.details_onSaveChanges_success
                      p d w _ E).
           split; [discriminate|].
           right; exists (values (DetailsDialog.form s)); exact V.
      * split; [exact IH1 | exact IH2].
    + apply andb_true_iff in Hr as [O E].
      rewrite DetailsDialogFacts.details_handleCancel_eq.
      destruct (confirm_answer w Sample.discard_prompt); simpl.
      * split; [rewrite E; discriminate | exact IH2].
      * split; [exact IH1 | exact IH2].
Qed.

Lemma details_invariants_witness :
  let p := DetailsDialog.mkProps Sample.guinea_pig Sample.owner in
  let step :=
    DetailsDialog.step Sample.any_rest Sample.no_literal p Sample.yes_ok in
  let s :=
    step DetailsDialog.Submit
      (step (DetailsDialog.Change Sample.edited)
         (step DetailsDialog.ClickEdit
            (step (DetailsDialog.OpenChange true) (DetailsDialog.init p)))) in
  (DetailsDialog.isEditing s = true -> DetailsDialog.open s = true)
  /\ (defaultValues (DetailsDialog.form s) = DetailsDialog.defaultValues p
      \/ exists v,
           speciesSchema Sample.any_rest v
           = Zod.Ok (defaultValues (DetailsDialog.form s))).
Proof.
  intros p step s.
  apply (details_invariants Sample.any_rest Sample.no_literal p s).
  unfold s, step.
  repeat (apply DetailsDialog.reach_step; [|reflexivity]).
  apply DetailsDialog.reach_init.
Defined.

(** X15.  In [part_001] a user who is not the author of the species never
    has the editing flag set, whatever was clicked before, and all there is
    on screen to act on is the opening or closing of the dialog, the comment
    form, and the delete buttons of the comments this user wrote. *)
Theorem non_author_cannot_edit speciesSchema StringNumericLiteral
    (p : CommentsDialog.Props) (s : CommentsDialog.State) :
  CommentsDialog.reachable speciesSchema StringNumericLiteral p s ->
  Js.eqb (CommentsDialog.userId p)
    (Species.author (CommentsDialog.species p)) = false ->
  CommentsDialog.isEditing s = false
  /\ forall a,
       CommentsDialog.rendered p s a = true ->
       (exists o, a = CommentsDialog.OpenChange o)
       \/ (exists v, a = CommentsDialog.ChangeComment v)
       \/ a = CommentsDialog.SubmitComment
       \/ exists i c,
            a = CommentsDialog.ClickDeleteComment i
            /\ nth_error (CommentsDialog.comments p) i = Some c
            /\ Js.eqb (CommentsDialog.userId p) (Comment.author c) = true.
Proof.
  intros R N.
  assert (E : CommentsDialog.isEditing s = false).
  { destruct (CommentsDialog.isEditing s) eqn:E; [|reflexivity].
    rewrite (CommentsDialogFacts.editing_only_for_author speciesSchema
               StringNumericLiteral p s R E) in N.
    discriminate. }
  split; [exact E|].
  intros a Hr; destruct a; simpl in Hr; rewrite ?E, ?N in Hr;
    rewrite ?andb_false_r in Hr; try discriminate.
  - left; exists o; reflexivity.
  - right; left; exists v; reflexivity.
  - right; right; left; reflexivity.
  - right; right; right.
    destruct (nth_error (CommentsDialog.comments p) i) as [c|] eqn:I;
      [|rewrite andb_false_r in Hr; discriminate].
    exists i, c; split; [reflexivity|]. split; [exact I|].
    apply andb_true_iff in Hr as [_ Hr]; exact Hr.
Qed.

Lemma non_author_cannot_edit_witness :
  let p :=
    CommentsDialog.mkProps Sample.guinea_pig [Sample.hello] Sample.visitor in
  let s :=
    CommentsDialog.step (fun v => Zod.Ok v) Sample.no_literal p Sample.yes_ok
      (CommentsDialog.OpenChange true) (CommentsDialog.init p) in
  CommentsDialog.isEditing s = false.
Proof.
  intros p s.
  apply (non_author_cannot_edit (fun v => Zod.Ok v) Sample.no_literal p s).
  - unfold s.
    apply CommentsDialog.reach_step; [|reflexivity].
    apply CommentsDialog.reach_init.
  - reflexivity.
Defined.

(** X16.  The click on "Delete Species" submits the species form too,
    whatever the answer to the prompt and whatever becomes of the delete:
    when the schema accepts the form, the update with the schema's output is
    sent, and when the store accepts that update the editing flag is cleared
    and the form takes the submitted values. *)
Theorem delete_click_sends_update speciesSchema StringNumericLiteral
    (p : CommentsDialog.Props) (w : World) (s : CommentsDialog.State)
    (d : FormData) :
  speciesSchema (values (CommentsDialog.speciesForm s)) = Zod.Ok d ->
  let q := species_update d (Species.id (CommentsDialog.species p)) in
  let r :=
    CommentsDialog.perform speciesSchema StringNumericLiteral p
      CommentsDialog.ClickDeleteSpecies w s in
  In (Supabase q) (trace_of r)
  /\ (supabase_error w q = None ->
      CommentsDialog.isEditing (state_after r) = false
      /\ CommentsDialog.speciesForm (state_after r) = mkForm d d []).
Proof.
  intros V q r; unfold r, q; simpl CommentsDialog.perform.
  rewrite CommentsDialogFacts.delete_click_eq.
  destruct (CommentsDialogFacts.handleDelete_state p w s) as [o [t [-> _]]].
  rewrite CommentsDialogFacts.species_submit_eq; simpl.
  rewrite V.
  destruct (supabase_error w
              (species_update d (Species.id (CommentsDialog.species p))))
    as [e|]; unfold trace_of, state_after; simpl.
  - split; [apply in_app_iff; right; left; reflexivity | discriminate].
  - split; [apply in_app_iff; right; left; reflexivity|].
    intros _; split; reflexivity.
Qed.

Lemma delete_click_sends_update_witness :
  let p := CommentsDialog.mkProps Sample.guinea_pig [] Sample.owner in
  let s :=
    CommentsDialog.mkState true true
      (mkForm Sample.edited (CommentsDialog.speciesDefaultValues p) [])
      (useForm CommentsDialog.commentDefaultValues) in
  let r :=
    CommentsDialog.perform (fun v => Zod.Ok v) Sample.no_literal p
      CommentsDialog.ClickDeleteSpecies Sample.no s in
  In (Supabase (species_update Sample.edited 7)) (trace_of r)
  /\ CommentsDialog.isEditing (state_after r) = false
  /\ CommentsDialog.speciesForm (state_after r)
     = mkForm Sample.edited Sample.edited [].
Proof.
  intros p s r.
  split.
  - exact (proj1 (delete_click_sends_update (fun v => Zod.Ok v)
                    Sample.no_literal p Sample.no s Sample.edited eq_refl)).
  - exact (proj2 (delete_click_sends_update (fun v => Zod.Ok v)
                    Sample.no_literal p Sample.no s Sample.edited eq_refl)
             eq_refl).
Defined.

End ActionFacts.

(** ** The list page *)

Module PageFacts.

Lemma filter_StronglySorted {A} (R : A -> A -> Prop) f (l : list A) :
  StronglySorted R l -> StronglySorted R (filter f l).
Proof.
  induction 1 as [|a l S IH F]; simpl; [constructor|].
  destruct (f a); [|exact IH].
  constructor; [exact IH|].
  rewrite Forall_forall in *; intros x I.
  apply filter_In in I as [I _]; auto.
Qed.

Lemma commentsOf_In commentsWithNames sp c :
  In c (Page.commentsOf commentsWithNames sp)
  <-> exists l, commentsWithNames = Some l /\ In c l
                /\ Comment.species c = Species.id sp.
Proof.
  unfold Page.commentsOf.
  destruct commentsWithNames as [l|].
  - rewrite map_id, filter_In, Z.eqb_eq; split.
    + intros [I E]; exists l; auto.
    + intros [l' [L [I E]]]; injection L as <-; auto.
  - split; [intros [] | intros [l [L _]]; discriminate].
Qed.

(** X13.  The comments handed to the card of a species are exactly the
    fetched comments whose species is that one; a comment handed to one card
    is handed to no card of a species with another id; and the comments keep
    the order they were fetched in (a list fetched sorted stays sorted in
    every card).  With no comments fetched, every card gets the empty
    list. *)
Theorem commentsOf_partitions (commentsWithNames : option (list Comment.t))
    (sp : Species.t) :
  (forall c,
     In c (Page.commentsOf commentsWithNames sp)
     <-> exists l, commentsWithNames = Some l /\ In c l
                   /\ Comment.species c = Species.id sp)
  /\ (forall sp' c,
        Species.id sp' <> Species.id sp ->
        In c (Page.commentsOf commentsWithNames sp) ->
        ~ In c (Page.commentsOf commentsWithNames sp'))
  /\ (forall R l,
        commentsWithNames = Some l -> StronglySorted R l ->
        StronglySorted R (Page.commentsOf commentsWithNames sp))
  /\ (commentsWithNames = None ->
      Page.commentsOf commentsWithNames sp = []).
Proof.
  split; [exact (commentsOf_In commentsWithNames sp) | split; [|split]].
  - intros sp' c D I I'.
    apply commentsOf_In in I as [_ [_ [_ E]]].
    apply commentsOf_In in I' as [_ [_ [_ E']]].
    congruence.
  - intros R l -> S; unfold Page.commentsOf.
    rewrite map_id; apply filter_StronglySorted; exact S.
  - intros ->; reflexivity.
Qed.

Lemma commentsOf_partitions_witness :
  In Sample.hello (Page.commentsOf (Some [Sample.hello]) Sample.guinea_pig).
Proof.
  apply (proj2 (proj1 (commentsOf_partitions (Some [Sample.hello])
                         Sample.guinea_pig) Sample.hello)).
  exists [Sample.hello]; split; [reflexivity|].
  split; [left; reflexivity | reflexivity].
Defined.

(** X14.  Without a session the page is a redirect to "/", whatever was
    fetched.  With one it is one card per fetched species, in the order
    fetched (none when nothing was fetched), each with the session's user id
    and with comments of its own species only. *)
Theorem SpeciesList_cards (session : option Page.Session)
    (species_data : option (list Species.t))
    (commentsWithNames : option (list Comment.t)) :
  match session with
  | None =>
      Page.SpeciesList session species_data commentsWithNames
      = Page.redirect (Js.lit "/")
  | Some ses =>
      exists l,
        Page.SpeciesList session species_data commentsWithNames
        = Page.cards l
        /\ map Page.species l
           = match species_data with Some rows => rows | None => [] end
        /\ Forall (fun card =>
                     Page.userId card = Page.user_id ses
                     /\ forall c,
                          In c (Page.comments card) ->
                          Comment.species c = Species.id (Page.species card))
             l
  end.
Proof.
  destruct session as [ses|]; [|reflexivity].
  eexists; split; [reflexivity|].
  destruct species_data as [rows|]; simpl; [|split; constructor].
  split.
  - rewrite map_map; simpl; apply map_id.
  - apply Forall_forall; intros card I.
    apply in_map_iff in I as [sp [<- _]]; simpl.
    split; [reflexivity|].
    intros c I.
    apply commentsOf_In in I as [_ [_ [_ E]]]; exact E.
Qed.

End PageFacts.
